(** * Student Application Portal: the API client and the view layer

    A shallow embedding of [src/api/client.js] (the fetch-based API client)
    and of [src/App.js] (the React view layer), with the properties of the
    specification stated over it.

    Conventions of the embedding:
    - JavaScript values that travel through the client are JSON documents;
      [undefined] is the [None] of [option json].  Strings are sequences of
      bytes (UTF-8) and numbers are integers.  An object is the list of its
      own properties in enumeration order.
    - A [Response] carries its body as text together with the outcome of
      parsing that text as JSON, so that no JSON grammar is fixed here.
    - Asynchronous code is a tree of [fetch] calls; a network answers them.
      Exceptions are values of [result].
    - A component is its [useState] record; an event handler reads the state
      it was rendered in and runs to its end before the router looks at the
      new state. *)

From Stdlib Require Import ZArith List String Ascii Bool Lia.
From Stdlib Require Import Numbers.DecimalString.
Import ListNotations.
Open Scope list_scope.
Open Scope string_scope.
Local Set Warnings "-register-all".

(** ** Strings *)

Module Str.

(** The double quote and the backslash, by code. *)
Definition dquote : ascii := ascii_of_nat 34.
Definition backslash : ascii := ascii_of_nat 92.

Definition of_char (c : ascii) : string := String c EmptyString.

(** [String.prototype.includes]: [needle] occurs somewhere in [hay]. *)
Fixpoint includes (hay needle : string) : bool :=
  String.prefix needle hay
  || match hay with
     | EmptyString => false
     | String _ rest => includes rest needle
     end.

(** [s.replace(/\/$/, '')]: the pattern matches a slash that is the last
    character of the input, and only there. *)
Fixpoint replace_trailing_slash (s : string) : string :=
  match s with
  | EmptyString => EmptyString
  | String c EmptyString => if Ascii.eqb c "/" then EmptyString else s
  | String c rest => String c (replace_trailing_slash rest)
  end.

(** [String(n)] for an integer: decimal digits, a minus sign when negative. *)
Definition of_Z (n : Z) : string := NilZero.string_of_int (Z.to_int n).

Definition is_empty (s : string) : bool :=
  match s with EmptyString => true | _ => false end.

Definition hex_digit (n : nat) : ascii :=
  ascii_of_nat (if Nat.ltb n 10 then 48 + n else 87 + n).

Definition upper_hex_digit (n : nat) : ascii :=
  ascii_of_nat (if Nat.ltb n 10 then 48 + n else 55 + n).

End Str.

(** ** JSON values *)

Inductive json : Type :=
| JNull
| JBool (b : bool)
| JNum (n : Z)
| JStr (s : string)
| JArr (items : list json)
| JObj (fields : list (string * json)).

(** A JavaScript value as the client sees it: [None] is [undefined]. *)
Abbreviation jsval := (option json).

(** Exceptions: the constructor that built them and their message. *)
Inductive exn_name : Type := ErrorK | SyntaxErrorK | TypeErrorK.

Record exn : Type := mkExn { name : exn_name; message : string }.

Definition Error (msg : string) : exn := mkExn ErrorK msg.

Inductive result (A : Type) : Type :=
| Ok (a : A)
| Throw (e : exn).
Arguments Ok {A} a.
Arguments Throw {A} e.

Module Js.

(** Own properties of an object in enumeration order; the first binding of
    a key is the property. *)
Fixpoint lookup (k : string) (fields : list (string * json)) : jsval :=
  match fields with
  | [] => None
  | (k', v) :: rest => if String.eqb k k' then Some v else lookup k rest
  end.

(** [ToBoolean]. *)
Definition truthy (v : json) : bool :=
  match v with
  | JNull => false
  | JBool b => b
  | JNum n => negb (Z.eqb n 0)
  | JStr s => negb (Str.is_empty s)
  | JArr _ | JObj _ => true
  end.

Definition truthy_val (v : jsval) : bool :=
  match v with
  | None => false
  | Some j => truthy j
  end.

(** [typeof v === 'object']: objects, arrays and [null]. *)
Definition typeof_object (v : json) : bool :=
  match v with
  | JNull | JArr _ | JObj _ => true
  | _ => false
  end.

(** [v.k] on a value that is not [null]: own property of an object, and
    [undefined] on arrays and primitives for the keys used here, none of
    which is a built-in property. *)
Definition prop (v : json) (k : string) : jsval :=
  match v with
  | JObj fields => lookup k fields
  | _ => None
  end.

(** [a ?? b]. *)
Definition nullish_or (a : jsval) (b : json) : json :=
  match a with
  | None | Some JNull => b
  | Some v => v
  end.

(** [String(v)]. *)
Fixpoint to_String (v : json) : string :=
  match v with
  | JNull => "null"
  | JBool true => "true"
  | JBool false => "false"
  | JNum n => Str.of_Z n
  | JStr s => s
  | JArr items =>
      String.concat ","
        (map (fun x => match x with
                       | JNull => EmptyString
                       | _ => to_String x
                       end) items)
  | JObj _ => "[object Object]"
  end.

(** Interpolation of a value in a template literal. *)
Definition to_String_val (v : jsval) : string :=
  match v with
  | None => "undefined"
  | Some j => to_String j
  end.

(** One character inside a JSON string literal. *)
Definition escape_char (c : ascii) : string :=
  let n := nat_of_ascii c in
  if Nat.eqb n 34 then String Str.backslash (Str.of_char Str.dquote)
  else if Nat.eqb n 92 then String Str.backslash (Str.of_char Str.backslash)
  else if Nat.eqb n 8 then String Str.backslash "b"
  else if Nat.eqb n 12 then String Str.backslash "f"
  else if Nat.eqb n 10 then String Str.backslash "n"
  else if Nat.eqb n 13 then String Str.backslash "r"
  else if Nat.eqb n 9 then String Str.backslash "t"
  else if Nat.ltb n 32 then
    String Str.backslash
      (String "u" (String "0" (String "0"
         (String (Str.hex_digit (n / 16))
            (Str.of_char (Str.hex_digit (n mod 16)))))))
  else Str.of_char c.

Fixpoint escape (s : string) : string :=
  match s with
  | EmptyString => EmptyString
  | String c rest => escape_char c ++ escape rest
  end.

(** [JSON.stringify] of a string: the literal between double quotes. *)
Definition quote (s : string) : string :=
  String Str.dquote (escape s ++ Str.of_char Str.dquote).

(** [JSON.stringify(v)], without indentation. *)
Fixpoint JSON_stringify (v : json) : string :=
  match v with
  | JNull => "null"
  | JBool true => "true"
  | JBool false => "false"
  | JNum n => Str.of_Z n
  | JStr s => quote s
  | JArr items => "[" ++ String.concat "," (map JSON_stringify items) ++ "]"
  | JObj fields =>
      "{" ++ String.concat ","
               (map (fun kv => quote (fst kv) ++ ":" ++ JSON_stringify (snd kv))
                    fields)
          ++ "}"
  end.


(** [v.k] where [v] may be [null]: reading a property of [null] throws. *)
Definition member (v : json) (k : string) : result jsval :=
  match v with
  | JNull =>
      Throw (mkExn TypeErrorK
               ("Cannot read properties of null (reading '" ++ k ++ "')"))
  | _ => Ok (prop v k)
  end.

(** [v?.k]. *)
Definition opt_member (v : json) (k : string) : jsval :=
  match v with
  | JNull => None
  | _ => prop v k
  end.

Definition is_string (x : string) (v : json) : bool :=
  match v with
  | JStr s => String.eqb s x
  | _ => false
  end.

(** [v.includes(x)] for a string [x]: membership in an array, substring
    of a string; other values have no such method. *)
Definition includes (v : json) (x : string) : result bool :=
  match v with
  | JArr items => Ok (existsb (is_string x) items)
  | JStr s => Ok (Str.includes s x)
  | _ => Throw (mkExn TypeErrorK "roles.includes is not a function")
  end.

(** [[x1, ..., xn].includes(v)] for an array literal of strings. *)
Definition literal_includes (xs : list string) (v : jsval) : bool :=
  match v with
  | Some (JStr s) => existsb (String.eqb s) xs
  | _ => false
  end.

(** [e.message || fallback]. *)
Definition message_or (e : exn) (fallback : string) : string :=
  if Str.is_empty (message e) then fallback else message e.

End Js.

(** ** The API client ([src/api/client.js]) *)

(** What a [Response] gives the client: the status line, the content-type
    header ([None] when the header is absent), the body as text, and the
    outcome of parsing that text as JSON ([resp.json()] and
    [JSON.parse(text)] read the same body). *)
Inductive parse_result : Type :=
| Parsed (v : json)
| NotJson (message : string).

Record Response : Type := mkResponse {
  status : Z;
  content_type : option string;
  text : string;
  parsed : parse_result
}.

(** [resp.ok]: the status is in the range 200-299. *)
Definition ok (resp : Response) : bool :=
  (200 <=? status resp)%Z && (status resp <=? 299)%Z.

(** The argument of [fetch]: the URL and the init dictionary. *)
Record FetchInit : Type := mkFetchInit {
  url : string;
  init_method : string;
  headers : list (string * string);
  init_body : option string
}.

(** [fetch] resolves to a response, or rejects (network failure). *)
Inductive fetch_outcome : Type :=
| Responded (resp : Response)
| Rejected (e : exn).

(** Client code is a tree of [fetch] calls: each [await fetch(...)] is a
    node whose continuation receives whatever the network answers. *)
Inductive io (A : Type) : Type :=
| Ret (a : A)
| Fetch (req : FetchInit) (k : fetch_outcome -> io A).
Arguments Ret {A} a.
Arguments Fetch {A} req k.

Fixpoint io_bind {A B : Type} (m : io A) (f : A -> io B) : io B :=
  match m with
  | Ret a => f a
  | Fetch req k => Fetch req (fun o => io_bind (k o) f)
  end.

(** An async function: a tree that ends in a value or in an exception. *)
Definition task (A : Type) : Type := io (result A).

Module Client.

Definition normalizeBase (apiBase : option string) : string :=
  Str.replace_trailing_slash
    (match apiBase with
     | Some b => b
     | None => EmptyString
     end).

Definition parseJsonOrText (resp : Response) : result json :=
  let contentType :=
    match content_type resp with
    | Some c => c
    | None => EmptyString
    end in
  if Str.includes contentType "application/json" then
    match parsed resp with
    | Parsed v => Ok v
    | NotJson m => Throw (mkExn SyntaxErrorK m)
    end
  else
    match parsed resp with
    | Parsed v => Ok v
    | NotJson _ => Ok (JStr (text resp))
    end.

Definition errorFromResponse (status : Z) (data : json) : exn :=
  if Js.truthy data && Js.typeof_object data then
    let detail := Js.nullish_or (Js.prop data "detail") data in
    match detail with
    | JStr s => Error s
    | _ => Error (Str.of_Z status ++ ": " ++ Js.JSON_stringify detail)
    end
  else Error (Str.of_Z status ++ ": " ++ Js.to_String data).

(** The destructured argument of [request]; [method] defaults to GET. *)
Record RequestArgs : Type := mkRequestArgs {
  apiBase : option string;
  path : string;
  method : option string;
  token : jsval;
  body : jsval
}.

Definition request_headers (token : jsval) : list (string * string) :=
  let headers := [("Content-Type", "application/json")] in
  if Js.truthy_val token
  then app headers [("Authorization", "Bearer " ++ Js.to_String_val token)]
  else headers.

(** The call [fetch(url, { method, headers, body })] that [request] makes. *)
Definition request_init (a : RequestArgs) : FetchInit :=
  {| url := normalizeBase (apiBase a) ++ path a;
     init_method := match method a with Some m => m | None => "GET" end;
     headers := request_headers (token a);
     init_body := match body a with
                  | Some b => if Js.truthy b then Some (Js.JSON_stringify b) else None
                  | None => None
                  end |}.

(** What [request] does with the answer of [fetch]. *)
Definition request_result (o : fetch_outcome) : result json :=
  match o with
  | Rejected e => Throw e
  | Responded resp =>
      match parseJsonOrText resp with
      | Throw e => Throw e
      | Ok data =>
          if negb (ok resp) then Throw (errorFromResponse (status resp) data)
          else Ok data
      end
  end.

Definition request (a : RequestArgs) : task json :=
  Fetch (request_init a) (fun o => Ret (request_result o)).

(** An object literal whose property values may be [undefined]; such
    properties are left out by [JSON.stringify], the only reader of a body. *)
Fixpoint defined_props (props : list (string * jsval))
    : list (string * json) :=
  match props with
  | [] => []
  | (k, None) :: rest => defined_props rest
  | (k, Some v) :: rest => (k, v) :: defined_props rest
  end.

Definition object_literal (props : list (string * jsval)) : json :=
  JObj (defined_props props).

Definition apiRegister (apiBase : option string)
    (email password first_name last_name : jsval) : task json :=
  request {| apiBase := apiBase;
             path := "/auth/register";
             method := Some "POST";
             token := None;
             body := Some (object_literal
                             [("email", email); ("password", password);
                              ("first_name", first_name);
                              ("last_name", last_name)]) |}.

Definition apiLogin (apiBase : option string) (email password : jsval)
    : task json :=
  request {| apiBase := apiBase;
             path := "/auth/login";
             method := Some "POST";
             token := None;
             body := Some (object_literal
                             [("email", email); ("password", password)]) |}.

Definition apiMe (apiBase : option string) (token : jsval) : task json :=
  request {| apiBase := apiBase;
             path := "/auth/me";
             method := Some "GET";
             token := token;
             body := None |}.

Definition apiListMyApplications (apiBase : option string) (token : jsval)
    : task json :=
  request {| apiBase := apiBase;
             path := "/applications/my";
             method := Some "GET";
             token := token;
             body := None |}.

Definition apiCreateApplication (apiBase : option string) (token : jsval)
    (program term : jsval) : task json :=
  request {| apiBase := apiBase;
             path := "/applications";
             method := Some "POST";
             token := token;
             body := Some (object_literal
                             [("program", program); ("term", term)]) |}.

Definition apiSubmitApplication (apiBase : option string) (token : jsval)
    (applicationId : jsval) : task json :=
  request {| apiBase := apiBase;
             path := "/applications/" ++ Js.to_String_val applicationId
                     ++ "/submit";
             method := Some "POST";
             token := token;
             body := None |}.

Definition apiWithdrawApplication (apiBase : option string) (token : jsval)
    (applicationId : jsval) : task json :=
  request {| apiBase := apiBase;
             path := "/applications/" ++ Js.to_String_val applicationId
                     ++ "/withdraw";
             method := Some "POST";
             token := token;
             body := None |}.

(** [URLSearchParams]: the list of name-value pairs. *)
Module URLSearchParams.

Definition t : Type := list (string * string).

Definition empty : t := [].

(** [set]: the first pair of that name takes the value and the other
    pairs of that name go; without such a pair, one is appended. *)
Fixpoint set (name value : string) (params : t) : t :=
  match params with
  | [] => [(name, value)]
  | (n, v) :: rest =>
      if String.eqb n name
      then (name, value)
           :: filter (fun nv => negb (String.eqb (fst nv) name)) rest
      else (n, v) :: set name value rest
  end.

(** The application/x-www-form-urlencoded percent-encode set: letters,
    digits and the four characters below stay, a space is a plus sign,
    every other byte is a percent sign and two upper-case hex digits. *)
Definition unreserved (n : nat) : bool :=
  (Nat.leb 48 n && Nat.leb n 57) || (Nat.leb 65 n && Nat.leb n 90)
  || (Nat.leb 97 n && Nat.leb n 122)
  || Nat.eqb n 42 || Nat.eqb n 45 || Nat.eqb n 46 || Nat.eqb n 95.

Definition encode_byte (c : ascii) : string :=
  let n := nat_of_ascii c in
  if unreserved n then Str.of_char c
  else if Nat.eqb n 32 then "+"
  else String "%" (String (Str.upper_hex_digit (n / 16))
                     (Str.of_char (Str.upper_hex_digit (n mod 16)))).

Fixpoint encode (s : string) : string :=
  match s with
  | EmptyString => EmptyString
  | String c rest => encode_byte c ++ encode rest
  end.

Definition toString (params : t) : string :=
  String.concat "&"
    (map (fun nv => encode (fst nv) ++ "=" ++ encode (snd nv)) params).

End URLSearchParams.

(** The parameters that [apiAdminListApplications] collects; [limit] and
    [offset] take their defaults when the caller leaves them out. *)
Definition adminListParams (status q limit offset : jsval)
    : URLSearchParams.t :=
  let limit := match limit with Some v => v | None => JNum 50 end in
  let offset := match offset with Some v => v | None => JNum 0 end in
  let params := URLSearchParams.empty in
  let params :=
    if Js.truthy_val status
    then URLSearchParams.set "status" (Js.to_String_val status) params
    else params in
  let params :=
    if Js.truthy_val q
    then URLSearchParams.set "q" (Js.to_String_val q) params
    else params in
  let params := URLSearchParams.set "limit" (Js.to_String limit) params in
  URLSearchParams.set "offset" (Js.to_String offset) params.

Definition apiAdminListApplications (apiBase : option string) (token : jsval)
    (status q limit offset : jsval) : task json :=
  let params := adminListParams status q limit offset in
  request {| apiBase := apiBase;
             path := "/admin/applications?" ++ URLSearchParams.toString params;
             method := Some "GET";
             token := token;
             body := None |}.

Definition apiAdminChangeStatus (apiBase : option string) (token : jsval)
    (applicationId to_status reason : jsval) : task json :=
  request {| apiBase := apiBase;
             path := "/admin/applications/" ++ Js.to_String_val applicationId
                     ++ "/status";
             method := Some "POST";
             token := token;
             body := Some (object_literal
                             [("to_status", to_status); ("reason", reason)]) |}.

End Client.

(** ** Running client code against a network

    The network answers the n-th [fetch] of a run, knowing the request.  A
    run yields the value of the tree and the exchanges in the order they
    happened. *)

Definition network : Type := nat -> FetchInit -> fetch_outcome.

Definition exchange : Type := (FetchInit * fetch_outcome)%type.

Fixpoint run_from {A : Type} (net : network) (n : nat) (m : io A)
    : A * list exchange :=
  match m with
  | Ret a => (a, [])
  | Fetch req k =>
      let o := net n req in
      let (a, tr) := run_from net (S n) (k o) in
      (a, (req, o) :: tr)
  end.

Definition run {A : Type} (net : network) (m : io A) : A * list exchange :=
  run_from net 0 m.

(** A network that gives the listed answers in turn, then stops answering. *)
Definition scripted (answers : list fetch_outcome) : network :=
  fun n _ => nth n answers (Rejected (mkExn TypeErrorK "Failed to fetch")).

(** The value of a request header, [None] when the header is not set. *)
Fixpoint header (h : string) (hs : list (string * string)) : option string :=
  match hs with
  | [] => None
  | (k, v) :: rest => if String.eqb h k then Some v else header h rest
  end.


(** ** The view layer ([src/App.js]) *)

(** The routes of [AppShell]; [ROther] is any location that only the
    catch-all route matches. *)
Inductive route : Type :=
| RHome | RLogin | RRegister | RStudent | RAdmin | ROther.

(** What a route element renders. *)
Inductive view : Type :=
| VHome
| VLoginPage
| VRegisterPage
| VStudentDashboard
| VAdminDashboard
| VAccessDenied (role : string)
| VNotFound
| VNavigate (to : route).

(** State of each component, as its [useState] calls declare it. *)
Module ShellSt.
Record t : Type := mk {
  apiBase : string;
  token : jsval;
  me : json;
  loadingMe : bool
}.
Definition setToken (v : jsval) (x : t) : t :=
  mk (apiBase x) v (me x) (loadingMe x).
Definition setMe (v : json) (x : t) : t :=
  mk (apiBase x) (token x) v (loadingMe x).
Definition setLoadingMe (b : bool) (x : t) : t :=
  mk (apiBase x) (token x) (me x) b.
End ShellSt.

Module LoginSt.
Record t : Type := mk {
  email : string;
  password : string;
  error : string;
  busy : bool
}.
Definition init : t := mk "student1@example.com" "password123" EmptyString false.
Definition setEmail (v : string) (x : t) : t :=
  mk v (password x) (error x) (busy x).
Definition setPassword (v : string) (x : t) : t :=
  mk (email x) v (error x) (busy x).
Definition setError (v : string) (x : t) : t :=
  mk (email x) (password x) v (busy x).
Definition setBusy (b : bool) (x : t) : t :=
  mk (email x) (password x) (error x) b.
End LoginSt.

Module RegisterSt.
Record t : Type := mk {
  email : string;
  password : string;
  firstName : string;
  lastName : string;
  error : string;
  busy : bool
}.
Definition init : t :=
  mk "student1@example.com" "password123" "Stu" "Dent" EmptyString false.
Definition setEmail (v : string) (x : t) : t :=
  mk v (password x) (firstName x) (lastName x) (error x) (busy x).
Definition setPassword (v : string) (x : t) : t :=
  mk (email x) v (firstName x) (lastName x) (error x) (busy x).
Definition setFirstName (v : string) (x : t) : t :=
  mk (email x) (password x) v (lastName x) (error x) (busy x).
Definition setLastName (v : string) (x : t) : t :=
  mk (email x) (password x) (firstName x) v (error x) (busy x).
Definition setError (v : string) (x : t) : t :=
  mk (email x) (password x) (firstName x) (lastName x) v (busy x).
Definition setBusy (b : bool) (x : t) : t :=
  mk (email x) (password x) (firstName x) (lastName x) (error x) b.
End RegisterSt.

Module StudentSt.
Record t : Type := mk {
  program : string;
  term : string;
  apps : json;
  busy : bool;
  error : string;
  info : string
}.
Definition init : t :=
  mk "Computer Science" "Fall 2026" (JArr []) false EmptyString EmptyString.
Definition setProgram (v : string) (x : t) : t :=
  mk v (term x) (apps x) (busy x) (error x) (info x).
Definition setTerm (v : string) (x : t) : t :=
  mk (program x) v (apps x) (busy x) (error x) (info x).
Definition setApps (v : json) (x : t) : t :=
  mk (program x) (term x) v (busy x) (error x) (info x).
Definition setBusy (b : bool) (x : t) : t :=
  mk (program x) (term x) (apps x) b (error x) (info x).
Definition setError (v : string) (x : t) : t :=
  mk (program x) (term x) (apps x) (busy x) v (info x).
Definition setInfo (v : string) (x : t) : t :=
  mk (program x) (term x) (apps x) (busy x) (error x) v.
End StudentSt.

Module AdminSt.
Record t : Type := mk {
  apps : json;
  status : string;
  q : string;
  busy : bool;
  error : string;
  info : string
}.
Definition init : t :=
  mk (JArr []) EmptyString EmptyString false EmptyString EmptyString.
Definition setApps (v : json) (x : t) : t :=
  mk v (status x) (q x) (busy x) (error x) (info x).
Definition setStatus (v : string) (x : t) : t :=
  mk (apps x) v (q x) (busy x) (error x) (info x).
Definition setQ (v : string) (x : t) : t :=
  mk (apps x) (status x) v (busy x) (error x) (info x).
Definition setBusy (b : bool) (x : t) : t :=
  mk (apps x) (status x) (q x) b (error x) (info x).
Definition setError (v : string) (x : t) : t :=
  mk (apps x) (status x) (q x) (busy x) v (info x).
Definition setInfo (v : string) (x : t) : t :=
  mk (apps x) (status x) (q x) (busy x) (error x) v.
End AdminSt.

(** The whole client: the component states, the [sap_token] entry of local
    storage ([None] when there is no entry) and the router's location. *)
Record state : Type := mkState {
  shell : ShellSt.t;
  storage : option string;
  location : route;
  loginPage : LoginSt.t;
  registerPage : RegisterSt.t;
  student : StudentSt.t;
  admin : AdminSt.t
}.

Definition on_shell (f : ShellSt.t -> ShellSt.t) (s : state) : state :=
  mkState (f (shell s)) (storage s) (location s) (loginPage s)
          (registerPage s) (student s) (admin s).
Definition set_storage (v : option string) (s : state) : state :=
  mkState (shell s) v (location s) (loginPage s) (registerPage s)
          (student s) (admin s).
Definition set_location (r : route) (s : state) : state :=
  mkState (shell s) (storage s) r (loginPage s) (registerPage s)
          (student s) (admin s).
Definition on_login (f : LoginSt.t -> LoginSt.t) (s : state) : state :=
  mkState (shell s) (storage s) (location s) (f (loginPage s))
          (registerPage s) (student s) (admin s).
Definition on_register (f : RegisterSt.t -> RegisterSt.t) (s : state) : state :=
  mkState (shell s) (storage s) (location s) (loginPage s)
          (f (registerPage s)) (student s) (admin s).
Definition on_student (f : StudentSt.t -> StudentSt.t) (s : state) : state :=
  mkState (shell s) (storage s) (location s) (loginPage s)
          (registerPage s) (f (student s)) (admin s).
Definition on_admin (f : AdminSt.t -> AdminSt.t) (s : state) : state :=
  mkState (shell s) (storage s) (location s) (loginPage s)
          (registerPage s) (student s) (f (admin s)).

Definition token_of (s : state) : jsval := ShellSt.token (shell s).

(** An event handler: it updates the state, awaits API calls, and may throw. *)
Definition action (A : Type) : Type := state -> io (result A * state).

Module Act.

Definition pure {A : Type} (a : A) : action A := fun s => Ret (Ok a, s).

Definition bind {A B : Type} (m : action A) (f : A -> action B) : action B :=
  fun s =>
    io_bind (m s)
      (fun rs => match fst rs with
                 | Ok a => f a (snd rs)
                 | Throw e => Ret (Throw e, snd rs)
                 end).

(** A state setter, [localStorage] call or [navigate]. *)
Definition update (f : state -> state) : action unit :=
  fun s => Ret (Ok tt, f s).

(** [await] of an API call. *)
Definition call {A : Type} (t : task A) : action A :=
  fun s => io_bind t (fun r => Ret (r, s)).

(** An expression that may throw. *)
Definition eval {A : Type} (r : result A) : action A := fun s => Ret (r, s).

(** [try { m } catch (e) { h e }]. *)
Definition catch {A : Type} (m : action A) (h : exn -> action A) : action A :=
  fun s =>
    io_bind (m s)
      (fun rs => match fst rs with
                 | Ok a => Ret (Ok a, snd rs)
                 | Throw e => h e (snd rs)
                 end).

(** [try { m } finally { f }]. *)
Definition finally {A : Type} (m : action A) (f : action unit) : action A :=
  fun s =>
    io_bind (m s)
      (fun rs =>
         io_bind (f (snd rs))
           (fun rs' => match fst rs' with
                       | Ok _ => Ret (fst rs, snd rs')
                       | Throw e => Ret (Throw e, snd rs')
                       end)).

End Act.

Declare Scope action_scope.
Delimit Scope action_scope with action.
Notation "x <- m ;; f" := (Act.bind m (fun x => f))
  (at level 61, m at next level, right associativity) : action_scope.
Notation "m ;; f" := (Act.bind m (fun _ => f))
  (at level 61, right associativity) : action_scope.
Open Scope action_scope.

(** The route guards.  [children] is what the wrapped element renders; it
    is looked at only when the guard lets it through. *)
Definition RequireAuth (token : jsval) (children : result view) : result view :=
  if negb (Js.truthy_val token) then Ok (VNavigate RLogin) else children.

Definition RequireRole (roles : json) (role : string) (children : result view)
    : result view :=
  match Js.includes roles role with
  | Throw e => Throw e
  | Ok has => if negb has then Ok (VAccessDenied role) else children
  end.

Module AppShell.

(** [process.env.REACT_APP_API_BASE_URL || 'http://localhost:3001'],
    without a trailing slash. *)
Definition apiBase (env : option string) : string :=
  Str.replace_trailing_slash
    (match env with
     | Some e => if Str.is_empty e then "http://localhost:3001" else e
     | None => "http://localhost:3001"
     end).

(** The state when the page loads at a location: the token comes from
    local storage, [localStorage.getItem('sap_token') || '']. *)
Definition init (env stored : option string) (loc : route) : state :=
  {| shell := ShellSt.mk (apiBase env)
                (Some (JStr (match stored with
                             | Some t => t
                             | None => EmptyString
                             end)))
                JNull false;
     storage := stored;
     location := loc;
     loginPage := LoginSt.init;
     registerPage := RegisterSt.init;
     student := StudentSt.init;
     admin := AdminSt.init |}.

Definition isAuthed (s : state) : bool := Js.truthy_val (token_of s).

(** [me?.roles || []]. *)
Definition roles (s : state) : json :=
  match Js.opt_member (ShellSt.me (shell s)) "roles" with
  | Some v => if Js.truthy v then v else JArr []
  | None => JArr []
  end.

Definition setToken (v : jsval) : action unit :=
  Act.update (on_shell (ShellSt.setToken v)).
Definition setMe (v : json) : action unit :=
  Act.update (on_shell (ShellSt.setMe v)).
Definition setLoadingMe (b : bool) : action unit :=
  Act.update (on_shell (ShellSt.setLoadingMe b)).
(** [localStorage.setItem('sap_token', v)] stores [String(v)]. *)
Definition setItem (v : jsval) : action unit :=
  Act.update (set_storage (Some (Js.to_String_val v))).
Definition removeItem : action unit := Act.update (set_storage None).
Definition navigate (to : route) : action unit :=
  Act.update (set_location to).

(** [c] is the state the handler closed over when it was rendered;
    [arg] is the argument of the call, [undefined] when there is none, in
    which case the parameter takes the rendered token. *)
Definition refreshMe (c : state) (arg : jsval) : action unit :=
  let nextToken := match arg with
                   | Some _ => arg
                   | None => token_of c
                   end in
  if negb (Js.truthy_val nextToken) then setMe JNull
  else
    setLoadingMe true ;;
    Act.finally
      (Act.catch
         (data <- Act.call
                    (Client.apiMe (Some (ShellSt.apiBase (shell c))) nextToken) ;;
          setMe data)
         (fun e =>
            setMe JNull ;;
            setToken (Some (JStr EmptyString)) ;;
            removeItem))
      (setLoadingMe false).

Definition onLogout : action unit :=
  setToken (Some (JStr EmptyString)) ;;
  setMe JNull ;;
  removeItem ;;
  navigate RLogin.

(** The [onAuthed] callback given to the login and the register page. *)
Definition onAuthed (c : state) (t : jsval) : action unit :=
  setToken t ;;
  setItem t ;;
  refreshMe c t ;;
  navigate RStudent.

(** The elements of the two guarded routes. *)
Definition student_element (s : state) : result view :=
  RequireAuth (token_of s)
    (RequireRole (roles s) "student" (Ok VStudentDashboard)).

Definition admin_element (s : state) : result view :=
  RequireAuth (token_of s)
    (RequireRole (roles s) "admin" (Ok VAdminDashboard)).

(** What [AppShell] renders under [Routes] at the current location; the
    render throws when [roles] has no [includes]. *)
Definition render (s : state) : result view :=
  match Js.includes (roles s) "student" with
  | Throw e => Throw e
  | Ok isStudent =>
      match Js.includes (roles s) "admin" with
      | Throw e => Throw e
      | Ok isAdmin =>
          match location s with
          | RHome => Ok VHome
          | RLogin =>
              if isAuthed s
              then Ok (VNavigate (if isAdmin then RAdmin else RStudent))
              else Ok VLoginPage
          | RRegister =>
              if isAuthed s then Ok (VNavigate RStudent) else Ok VRegisterPage
          | RStudent => student_element s
          | RAdmin => admin_element s
          | ROther => Ok VNotFound
          end
      end
  end.

(** A rendered [Navigate] element replaces the location. *)
Definition follow (s : state) : state :=
  match render s with
  | Ok (VNavigate to) => set_location to s
  | _ => s
  end.

(** The location after the redirects have run. *)
Definition settle (s : state) : state := follow (follow s).

End AppShell.

Module LoginPage.

Definition setError (v : string) : action unit :=
  Act.update (on_login (LoginSt.setError v)).
Definition setBusy (b : bool) : action unit :=
  Act.update (on_login (LoginSt.setBusy b)).

Definition submit (c : state) : action unit :=
  setError EmptyString ;;
  setBusy true ;;
  Act.finally
    (Act.catch
       (data <- Act.call
                  (Client.apiLogin (Some (ShellSt.apiBase (shell c)))
                     (Some (JStr (LoginSt.email (loginPage c))))
                     (Some (JStr (LoginSt.password (loginPage c))))) ;;
        t <- Act.eval (Js.member data "access_token") ;;
        AppShell.onAuthed c t)
       (fun err => setError (Js.message_or err "Login failed")))
    (setBusy false).

End LoginPage.

Module RegisterPage.

Definition setError (v : string) : action unit :=
  Act.update (on_register (RegisterSt.setError v)).
Definition setBusy (b : bool) : action unit :=
  Act.update (on_register (RegisterSt.setBusy b)).

Definition submit (c : state) : action unit :=
  setError EmptyString ;;
  setBusy true ;;
  Act.finally
    (Act.catch
       (data <- Act.call
                  (Client.apiRegister (Some (ShellSt.apiBase (shell c)))
                     (Some (JStr (RegisterSt.email (registerPage c))))
                     (Some (JStr (RegisterSt.password (registerPage c))))
                     (Some (JStr (RegisterSt.firstName (registerPage c))))
                     (Some (JStr (RegisterSt.lastName (registerPage c))))) ;;
        t <- Act.eval (Js.member data "access_token") ;;
        AppShell.onAuthed c t)
       (fun err => setError (Js.message_or err "Registration failed")))
    (setBusy false).

End RegisterPage.

Module StudentDashboard.

Definition setApps (v : json) : action unit :=
  Act.update (on_student (StudentSt.setApps v)).
Definition setBusy (b : bool) : action unit :=
  Act.update (on_student (StudentSt.setBusy b)).
Definition setError (v : string) : action unit :=
  Act.update (on_student (StudentSt.setError v)).
Definition setInfo (v : string) : action unit :=
  Act.update (on_student (StudentSt.setInfo v)).

(** The props [apiBase] and [token] are those of the render [c]. *)
Definition refresh (c : state) : action unit :=
  setError EmptyString ;;
  setInfo EmptyString ;;
  setBusy true ;;
  Act.finally
    (Act.catch
       (data <- Act.call
                  (Client.apiListMyApplications
                     (Some (ShellSt.apiBase (shell c))) (token_of c)) ;;
        setApps data)
       (fun e => setError (Js.message_or e "Failed to load applications")))
    (setBusy false).

Definition createDraft (c : state) : action unit :=
  setError EmptyString ;;
  setInfo EmptyString ;;
  setBusy true ;;
  Act.finally
    (Act.catch
       (created <- Act.call
                     (Client.apiCreateApplication
                        (Some (ShellSt.apiBase (shell c))) (token_of c)
                        (Some (JStr (StudentSt.program (student c))))
                        (Some (JStr (StudentSt.term (student c))))) ;;
        id <- Act.eval (Js.member created "id") ;;
        setInfo ("Created draft application " ++ Js.to_String_val id) ;;
        refresh c)
       (fun e => setError (Js.message_or e "Failed to create application")))
    (setBusy false).

Definition submitApp (c : state) (appId : jsval) : action unit :=
  setError EmptyString ;;
  setInfo EmptyString ;;
  setBusy true ;;
  Act.finally
    (Act.catch
       (Act.call
          (Client.apiSubmitApplication
             (Some (ShellSt.apiBase (shell c))) (token_of c) appId) ;;
        setInfo ("Submitted application " ++ Js.to_String_val appId) ;;
        refresh c)
       (fun e => setError (Js.message_or e "Failed to submit application")))
    (setBusy false).

Definition withdrawApp (c : state) (appId : jsval) : action unit :=
  setError EmptyString ;;
  setInfo EmptyString ;;
  setBusy true ;;
  Act.finally
    (Act.catch
       (Act.call
          (Client.apiWithdrawApplication
             (Some (ShellSt.apiBase (shell c))) (token_of c) appId) ;;
        setInfo ("Withdrew application " ++ Js.to_String_val appId) ;;
        refresh c)
       (fun e => setError (Js.message_or e "Failed to withdraw application")))
    (setBusy false).

(** The [disabled] attribute of the buttons of a row with status
    [status], [a.status] in the source. *)
Definition submit_disabled (busy : bool) (status : jsval) : bool :=
  busy || negb (Js.literal_includes ["draft"; "needs_info"] status).

Definition withdraw_disabled (busy : bool) (status : jsval) : bool :=
  busy || Js.literal_includes ["approved"; "rejected"; "withdrawn"] status.

End StudentDashboard.

Module AdminDashboard.

Definition setApps (v : json) : action unit :=
  Act.update (on_admin (AdminSt.setApps v)).
Definition setBusy (b : bool) : action unit :=
  Act.update (on_admin (AdminSt.setBusy b)).
Definition setError (v : string) : action unit :=
  Act.update (on_admin (AdminSt.setError v)).
Definition setInfo (v : string) : action unit :=
  Act.update (on_admin (AdminSt.setInfo v)).

(** [x || null] for a string [x]. *)
Definition or_null (x : string) : jsval :=
  if Str.is_empty x then Some JNull else Some (JStr x).

Definition refresh (c : state) : action unit :=
  setError EmptyString ;;
  setInfo EmptyString ;;
  setBusy true ;;
  Act.finally
    (Act.catch
       (data <- Act.call
                  (Client.apiAdminListApplications
                     (Some (ShellSt.apiBase (shell c))) (token_of c)
                     (or_null (AdminSt.status (admin c)))
                     (or_null (AdminSt.q (admin c)))
                     None None) ;;
        setApps data)
       (fun e => setError (Js.message_or e "Failed to load applications")))
    (setBusy false).

Definition changeStatus (c : state) (appId : jsval) (toStatus : string)
    : action unit :=
  setError EmptyString ;;
  setInfo EmptyString ;;
  setBusy true ;;
  Act.finally
    (Act.catch
       (Act.call
          (Client.apiAdminChangeStatus
             (Some (ShellSt.apiBase (shell c))) (token_of c) appId
             (Some (JStr toStatus)) (Some JNull)) ;;
        setInfo ("Changed status to " ++ toStatus ++ " for "
                 ++ Js.to_String_val appId) ;;
        refresh c)
       (fun e => setError (Js.message_or e "Failed to change status")))
    (setBusy false).

Definition in_review_disabled (busy : bool) (status : jsval) : bool :=
  busy || negb (Js.literal_includes ["submitted"; "needs_info"] status).

Definition needs_info_disabled (busy : bool) (status : jsval) : bool :=
  busy || negb (Js.literal_includes ["submitted"; "in_review"] status).

Definition approve_disabled (busy : bool) (status : jsval) : bool :=
  busy || negb (Js.literal_includes ["in_review"] status).

Definition reject_disabled (busy : bool) (status : jsval) : bool :=
  busy
  || negb (Js.literal_includes
             ["submitted"; "in_review"; "needs_info"; "draft"] status).

End AdminDashboard.

(** ** Events

    What the user can do: type in an input, follow a link, press a button. *)

Inductive input : Type :=
| LoginEmail | LoginPassword
| RegisterFirstName | RegisterLastName | RegisterEmail | RegisterPassword
| StudentProgram | StudentTerm
| AdminStatus | AdminQ.

Inductive event : Type :=
| Typed (field : input) (value : string)
| LinkTo (to : route)
| LoginSubmit
| RegisterSubmit
| RefreshSession
| Logout
| StudentRefresh
| StudentCreateDraft
| StudentSubmit (appId : jsval)
| StudentWithdraw (appId : jsval)
| AdminRefresh
| AdminChangeStatus (appId : jsval) (toStatus : string).

Definition typed (field : input) (v : string) : state -> state :=
  match field with
  | LoginEmail => on_login (LoginSt.setEmail v)
  | LoginPassword => on_login (LoginSt.setPassword v)
  | RegisterFirstName => on_register (RegisterSt.setFirstName v)
  | RegisterLastName => on_register (RegisterSt.setLastName v)
  | RegisterEmail => on_register (RegisterSt.setEmail v)
  | RegisterPassword => on_register (RegisterSt.setPassword v)
  | StudentProgram => on_student (StudentSt.setProgram v)
  | StudentTerm => on_student (StudentSt.setTerm v)
  | AdminStatus => on_admin (AdminSt.setStatus v)
  | AdminQ => on_admin (AdminSt.setQ v)
  end.

(** The handler of an event, as rendered in state [c]. *)
Definition handler (e : event) (c : state) : action unit :=
  match e with
  | Typed field v => Act.update (typed field v)
  | LinkTo to => AppShell.navigate to
  | LoginSubmit => LoginPage.submit c
  | RegisterSubmit => RegisterPage.submit c
  | RefreshSession => AppShell.refreshMe c None
  | Logout => AppShell.onLogout
  | StudentRefresh => StudentDashboard.refresh c
  | StudentCreateDraft => StudentDashboard.createDraft c
  | StudentSubmit appId => StudentDashboard.submitApp c appId
  | StudentWithdraw appId => StudentDashboard.withdrawApp c appId
  | AdminRefresh => AdminDashboard.refresh c
  | AdminChangeStatus appId toStatus =>
      AdminDashboard.changeStatus c appId toStatus
  end.

(** One event against a network: the state when the handler has finished
    (before the router reacts), and the exchanges it made. *)
Definition dispatch (net : network) (e : event) (s : state)
    : state * list exchange :=
  let (rs, tr) := run net (handler e s s) in (snd rs, tr).

(** The same, after the redirects of the new render. *)
Definition step (net : network) (e : event) (s : state) : state :=
  AppShell.settle (fst (dispatch net e s)).

(** ** The navigation bar and the tables of the dashboards

    What [TopNav] and the two tables give to React: which links and buttons
    exist, and the values of the cells.  Class names of links and the
    layout are left out. *)

(** [items.join(sep)]: [null] elements give the empty string. *)
Definition array_join (sep : string) (items : list json) : string :=
  String.concat sep
    (map (fun x => match x with
                   | JNull => EmptyString
                   | _ => Js.to_String x
                   end) items).

(** What React does with a value given as a child of an element: text and
    numbers are rendered, booleans, [null] and [undefined] render nothing,
    an array is rendered child by child, and an object makes the render
    throw, which leaves nothing on the screen. *)
Fixpoint valid_child (v : json) : bool :=
  match v with
  | JObj _ => false
  | JArr items => forallb valid_child items
  | _ => true
  end.

Definition mount_child (v : jsval) : result unit :=
  match v with
  | None => Ok tt
  | Some j =>
      if valid_child j then Ok tt
      else Throw (Error "Objects are not valid as a React child")
  end.

Fixpoint mount_children (vs : list jsval) : result unit :=
  match vs with
  | [] => Ok tt
  | v :: rest =>
      match mount_child v with
      | Throw e => Throw e
      | Ok _ => mount_children rest
      end
  end.

Module TopNav.

Record t : Type := mk {
  links : list route;
  refresh_button : option string;
  logout_button : bool;
  not_signed_in : bool;
  user : option (jsval * string)
}.

(** [(me.roles || []).join(', ') || 'no roles'] for a truthy [me]. *)
Definition roles_text (me : json) : result string :=
  match (match Js.prop me "roles" with
         | Some v => if Js.truthy v then v else JArr []
         | None => JArr []
         end) with
  | JArr items =>
      let joined := array_join ", " items in
      Ok (if Str.is_empty joined then "no roles" else joined)
  | _ => Throw (mkExn TypeErrorK "(me.roles || []).join is not a function")
  end.

Definition render (isAuthed loadingMe : bool) (me : json)
    (isStudent isAdmin : bool) : result t :=
  let links :=
    ([RHome]
     ++ (if negb isAuthed then [RLogin; RRegister] else [])
     ++ (if isAuthed && isStudent then [RStudent] else [])
     ++ (if isAuthed && isAdmin then [RAdmin] else []))%list in
  let refresh :=
    if isAuthed
    then Some (if loadingMe then "Refreshing…" else "Refresh session")
    else None in
  if isAuthed && Js.truthy me then
    match roles_text me with
    | Throw e => Throw e
    | Ok txt =>
        match mount_child (Js.prop me "email") with
        | Throw e => Throw e
        | Ok _ =>
            Ok (mk links refresh isAuthed (negb isAuthed)
                  (Some (Js.prop me "email", txt)))
        end
    end
  else Ok (mk links refresh isAuthed (negb isAuthed) None).

End TopNav.

(** [StatusPill]: the class of the pill. *)
Definition StatusPill (status : jsval) : string :=
  "pill pill-" ++ Js.to_String_val status.

(** [apps.length === 0] for the value that [setApps] stored. *)
Definition length_is_zero (apps : json) : result bool :=
  match apps with
  | JNull =>
      Throw (mkExn TypeErrorK
               "Cannot read properties of null (reading 'length')")
  | JArr items => Ok (match items with [] => true | _ => false end)
  | JStr s => Ok (Str.is_empty s)
  | JObj fields =>
      Ok (match Js.lookup "length" fields with
          | Some (JNum n) => Z.eqb n 0
          | _ => false
          end)
  | _ => Ok false
  end.

(** [apps.map(f)]: only an array has the method. *)
Fixpoint map_result {A B : Type} (f : A -> result B) (l : list A)
    : result (list B) :=
  match l with
  | [] => Ok []
  | x :: rest =>
      match f x with
      | Throw e => Throw e
      | Ok y =>
          match map_result f rest with
          | Throw e => Throw e
          | Ok ys => Ok (y :: ys)
          end
      end
  end.

Definition apps_map {B : Type} (apps : json) (f : json -> result B)
    : result (list B) :=
  match apps with
  | JArr items => map_result f items
  | _ => Throw (mkExn TypeErrorK "apps.map is not a function")
  end.

Module StudentView.

Record row : Type := mk_row {
  key : jsval;
  id : jsval;
  program : jsval;
  term : jsval;
  status : jsval;
  pill : string;
  submit_disabled : bool;
  withdraw_disabled : bool
}.

Inductive table : Type :=
| Placeholder
| Rows (rows : list row).

(** The row that the callback of [apps.map((a) => ...)] builds; [a.id]
    throws on [null]. *)
Definition row_of (busy : bool) (a : json) : result row :=
  match Js.member a "id" with
  | Throw e => Throw e
  | Ok aid =>
      Ok (mk_row aid aid (Js.prop a "program") (Js.prop a "term")
            (Js.prop a "status") (StatusPill (Js.prop a "status"))
            (StudentDashboard.submit_disabled busy (Js.prop a "status"))
            (StudentDashboard.withdraw_disabled busy (Js.prop a "status")))
  end.

(** React mounting a row: the four cells are children. *)
Definition mount_row (r : row) : result row :=
  match mount_children [id r; program r; term r; status r] with
  | Throw e => Throw e
  | Ok _ => Ok r
  end.

(** The table: the component builds all rows, then React mounts them. *)
Definition render (st : StudentSt.t) : result table :=
  match length_is_zero (StudentSt.apps st) with
  | Throw e => Throw e
  | Ok true => Ok Placeholder
  | Ok false =>
      match apps_map (StudentSt.apps st) (row_of (StudentSt.busy st)) with
      | Throw e => Throw e
      | Ok rows =>
          match map_result mount_row rows with
          | Throw e => Throw e
          | Ok mounted => Ok (Rows mounted)
          end
      end
  end.

End StudentView.

Module AdminView.

(** The four buttons of a row: the status each one asks for, and whether
    it is disabled. *)
Record row : Type := mk_row {
  key : jsval;
  id : jsval;
  student_user_id : jsval;
  program : jsval;
  term : jsval;
  status : jsval;
  pill : string;
  buttons : list (string * bool)
}.

Inductive table : Type :=
| Placeholder
| Rows (rows : list row).

(** The row that the callback of [apps.map((a) => ...)] builds. *)
Definition row_of (busy : bool) (a : json) : result row :=
  match Js.member a "id" with
  | Throw e => Throw e
  | Ok aid =>
      Ok (mk_row aid aid (Js.prop a "student_user_id") (Js.prop a "program")
            (Js.prop a "term") (Js.prop a "status")
            (StatusPill (Js.prop a "status"))
            [("in_review",
              AdminDashboard.in_review_disabled busy (Js.prop a "status"));
             ("needs_info",
              AdminDashboard.needs_info_disabled busy (Js.prop a "status"));
             ("approved",
              AdminDashboard.approve_disabled busy (Js.prop a "status"));
             ("rejected",
              AdminDashboard.reject_disabled busy (Js.prop a "status"))])
  end.

(** React mounting a row: the five cells are children. *)
Definition mount_row (r : row) : result row :=
  match mount_children
          [id r; student_user_id r; program r; term r; status r] with
  | Throw e => Throw e
  | Ok _ => Ok r
  end.

Definition render (st : AdminSt.t) : result table :=
  match length_is_zero (AdminSt.apps st) with
  | Throw e => Throw e
  | Ok true => Ok Placeholder
  | Ok false =>
      match apps_map (AdminSt.apps st) (row_of (AdminSt.busy st)) with
      | Throw e => Throw e
      | Ok rows =>
          match map_result mount_row rows with
          | Throw e => Throw e
          | Ok mounted => Ok (Rows mounted)
          end
      end
  end.

End AdminView.

(** What the page under the navigation bar holds besides its kind. *)
Inductive content : Type :=
| NoTable
| StudentTable (t : StudentView.table)
| AdminTable (t : AdminView.table).

(** A whole render of [AppShell]: the navigation bar, the route element and
    the table of a dashboard.  An exception anywhere leaves nothing on the
    screen. *)
Definition screen (s : state) : result (TopNav.t * view * content) :=
  match Js.includes (AppShell.roles s) "student" with
  | Throw e => Throw e
  | Ok isStudent =>
      match Js.includes (AppShell.roles s) "admin" with
      | Throw e => Throw e
      | Ok isAdmin =>
          match TopNav.render (AppShell.isAuthed s)
                  (ShellSt.loadingMe (shell s)) (ShellSt.me (shell s))
                  isStudent isAdmin with
          | Throw e => Throw e
          | Ok nav =>
              match AppShell.render s with
              | Throw e => Throw e
              | Ok VStudentDashboard =>
                  match StudentView.render (student s) with
                  | Throw e => Throw e
                  | Ok t => Ok (nav, VStudentDashboard, StudentTable t)
                  end
              | Ok VAdminDashboard =>
                  match AdminView.render (admin s) with
                  | Throw e => Throw e
                  | Ok t => Ok (nav, VAdminDashboard, AdminTable t)
                  end
              | Ok v => Ok (nav, v, NoTable)
              end
          end
      end
  end.

(** ** Vocabulary of the statements *)

(** The requests of a run, in order. *)
Definition sent {A : Type} (net : network) (m : io A) : list FetchInit :=
  map fst (snd (run net m)).

(** The value a run ends with. *)
Definition outcome {A : Type} (net : network) (m : io A) : A :=
  fst (run net m).

Fixpoint ends_with_slash (s : string) : bool :=
  match s with
  | EmptyString => false
  | String c EmptyString => Ascii.eqb c "/"
  | String _ rest => ends_with_slash rest
  end.

(** The string without its last character. *)
Fixpoint without_last (s : string) : string :=
  match s with
  | EmptyString => EmptyString
  | String _ EmptyString => EmptyString
  | String c rest => String c (without_last rest)
  end.

(** The last character of a string. *)
Fixpoint last_char (s : string) : option ascii :=
  match s with
  | EmptyString => None
  | String c rest =>
      match last_char rest with
      | None => Some c
      | Some c' => Some c'
      end
  end.

(** The characters a JSON text can end with: a digit, the last letter of
    null, true and false, a closing quote, bracket or brace. *)
Definition json_final (c : ascii) : bool :=
  let n := nat_of_ascii c in
  (Nat.leb 48 n && Nat.leb n 57)
  || Nat.eqb n 108 || Nat.eqb n 101
  || Nat.eqb n 34 || Nat.eqb n 93 || Nat.eqb n 125.

(** The content type of a response declares JSON. *)
Definition declares_json (resp : Response) : bool :=
  Str.includes
    (match content_type resp with Some c => c | None => EmptyString end)
    "application/json".

(** What a request puts on the wire besides its URL and method: the
    Content-Type header, the Authorization header and the body. *)
Definition wire (r : FetchInit) : option string * option string * option string :=
  (header "Content-Type" (headers r), header "Authorization" (headers r),
   init_body r).

(** The Authorization header that goes with a token. *)
Definition bearer (token : jsval) : option string :=
  if Js.truthy_val token then Some ("Bearer " ++ Js.to_String_val token)
  else None.

(** A status is one of the listed strings. *)
Definition status_in (xs : list string) (status : jsval) : Prop :=
  exists s, status = Some (JStr s) /\ In s xs.

(** The requests of an event and the state its handler leaves. *)
Definition requests (net : network) (e : event) (s : state) : list FetchInit :=
  map fst (snd (dispatch net e s)).

Definition after (net : network) (e : event) (s : state) : state :=
  fst (dispatch net e s).

(** The session: the token of [AppShell] and the entry of local storage. *)
Definition session (s : state) : jsval * option string :=
  (token_of s, storage s).

(** The cleared session: the empty token, no entry, no current user. *)
Definition cleared (s : state) : Prop :=
  session s = (Some (JStr EmptyString), None) /\ ShellSt.me (shell s) = JNull.

(** The requests of the three calls that matter for the session. *)
Definition me_request (s : state) (token : jsval) : FetchInit :=
  Client.request_init
    (Client.mkRequestArgs (Some (ShellSt.apiBase (shell s))) "/auth/me"
       (Some "GET") token None).

Definition login_request (s : state) : FetchInit :=
  Client.request_init
    (Client.mkRequestArgs (Some (ShellSt.apiBase (shell s))) "/auth/login"
       (Some "POST") None
       (Some (Client.object_literal
                [("email", Some (JStr (LoginSt.email (loginPage s))));
                 ("password", Some (JStr (LoginSt.password (loginPage s))))]))).

Definition register_request (s : state) : FetchInit :=
  Client.request_init
    (Client.mkRequestArgs (Some (ShellSt.apiBase (shell s))) "/auth/register"
       (Some "POST") None
       (Some (Client.object_literal
                [("email", Some (JStr (RegisterSt.email (registerPage s))));
                 ("password", Some (JStr (RegisterSt.password (registerPage s))));
                 ("first_name",
                  Some (JStr (RegisterSt.firstName (registerPage s))));
                 ("last_name",
                  Some (JStr (RegisterSt.lastName (registerPage s))))]))).

Definition list_my_request (s : state) : FetchInit :=
  Client.request_init
    (Client.mkRequestArgs (Some (ShellSt.apiBase (shell s))) "/applications/my"
       (Some "GET") (token_of s) None).

(** The session after an authentication call answered [auth] at exchange 0:
    nothing changes when the call or the reading of [access_token] throws;
    otherwise the token [t] of the answer is stored, and the current user is
    refreshed with it (with the rendered token when [t] is [undefined]) at
    exchange 1, which clears the session when it throws; the handler then
    navigates to /student. *)
Definition session_after_auth (net : network) (s s' : state)
    (auth : result json) : Prop :=
  match auth with
  | Throw _ => session s' = session s
  | Ok data =>
      match Js.member data "access_token" with
      | Throw _ => session s' = session s
      | Ok t =>
          let nextToken := match t with Some _ => t | None => token_of s end in
          if Js.truthy_val nextToken then
            match Client.request_result (net 1%nat (me_request s nextToken)) with
            | Ok _ => session s' = (t, Some (Js.to_String_val t))
            | Throw _ => cleared s' /\ location s' = RStudent
            end
          else session s' = (t, Some (Js.to_String_val t))
      end
  end.

(** A signed-in client, for examples. *)
Definition signed_in (t : string) (me : json) (loc : route) : state :=
  {| shell := ShellSt.mk "http://localhost:3001" (Some (JStr t)) me false;
     storage := Some t;
     location := loc;
     loginPage := LoginSt.init;
     registerPage := RegisterSt.init;
     student := StudentSt.init;
     admin := AdminSt.init |}.

Definition a_student : json :=
  JObj [("email", JStr "student1@example.com");
        ("roles", JArr [JStr "student"])].

(** A response that declares JSON and whose body is the JSON text of [v]. *)
Definition json_response (status : Z) (v : json) : Response :=
  mkResponse status (Some "application/json") (Js.JSON_stringify v) (Parsed v).

(** An answer 401 of the backend to a token it does not accept. *)
Definition unauthorized : fetch_outcome :=
  Responded (json_response 401 (JObj [("detail", JStr "Invalid token")])).

(** The events that a screen offers: the handlers of the elements that
    are rendered and not disabled.  (Validation of the form fields by the
    browser is not looked at, so a form may offer more here than there.) *)
Definition available (s : state) (e : event) : Prop :=
  match screen s with
  | Throw _ => False
  | Ok (nav, v, c) =>
      match e with
      | Typed LoginEmail _ | Typed LoginPassword _ => v = VLoginPage
      | Typed RegisterFirstName _ | Typed RegisterLastName _
      | Typed RegisterEmail _ | Typed RegisterPassword _ => v = VRegisterPage
      | Typed StudentProgram _ | Typed StudentTerm _ => v = VStudentDashboard
      | Typed AdminStatus _ | Typed AdminQ _ => v = VAdminDashboard
      | LinkTo to =>
          In to (TopNav.links nav)
          \/ (v = VLoginPage /\ to = RRegister)
          \/ (v = VNotFound /\ to = RHome)
      | LoginSubmit =>
          v = VLoginPage /\ LoginSt.busy (loginPage s) = false
      | RegisterSubmit =>
          v = VRegisterPage /\ RegisterSt.busy (registerPage s) = false
      | RefreshSession => TopNav.refresh_button nav <> None
      | Logout => TopNav.logout_button nav = true
      | StudentRefresh | StudentCreateDraft =>
          v = VStudentDashboard /\ StudentSt.busy (student s) = false
      | StudentSubmit appId =>
          exists rows r,
            c = StudentTable (StudentView.Rows rows) /\ In r rows
            /\ StudentView.id r = appId
            /\ StudentView.submit_disabled r = false
      | StudentWithdraw appId =>
          exists rows r,
            c = StudentTable (StudentView.Rows rows) /\ In r rows
            /\ StudentView.id r = appId
            /\ StudentView.withdraw_disabled r = false
      | AdminRefresh =>
          v = VAdminDashboard /\ AdminSt.busy (admin s) = false
      | AdminChangeStatus appId toStatus =>
          exists rows r,
            c = AdminTable (AdminView.Rows rows) /\ In r rows
            /\ AdminView.id r = appId
            /\ In (toStatus, false) (AdminView.buttons r)
      end
  end.

(** Local storage holds the string form of the token of the state, and
    nothing only when that token is the empty string. *)
Definition synced (s : state) : Prop :=
  match storage s with
  | None => token_of s = Some (JStr EmptyString)
  | Some x => Js.to_String_val (token_of s) = x
  end.

(** No busy flag is set. *)
Definition idle (s : state) : Prop :=
  ShellSt.loadingMe (shell s) = false
  /\ LoginSt.busy (loginPage s) = false
  /\ RegisterSt.busy (registerPage s) = false
  /\ StudentSt.busy (student s) = false
  /\ AdminSt.busy (admin s) = false.

(** The four handlers that change an application and then list again, with
    the request of the change and the request of the list. *)
Definition change_request (s : state) (e : event) : option FetchInit :=
  let base := Some (ShellSt.apiBase (shell s)) in
  match e with
  | StudentCreateDraft =>
      Some (Client.request_init
              (Client.mkRequestArgs base "/applications" (Some "POST")
                 (token_of s)
                 (Some (Client.object_literal
                          [("program",
                            Some (JStr (StudentSt.program (student s))));
                           ("term",
                            Some (JStr (StudentSt.term (student s))))]))))
  | StudentSubmit appId =>
      Some (Client.request_init
              (Client.mkRequestArgs base
                 ("/applications/" ++ Js.to_String_val appId ++ "/submit")
                 (Some "POST") (token_of s) None))
  | StudentWithdraw appId =>
      Some (Client.request_init
              (Client.mkRequestArgs base
                 ("/applications/" ++ Js.to_String_val appId ++ "/withdraw")
                 (Some "POST") (token_of s) None))
  | AdminChangeStatus appId toStatus =>
      Some (Client.request_init
              (Client.mkRequestArgs base
                 ("/admin/applications/" ++ Js.to_String_val appId
                  ++ "/status")
                 (Some "POST") (token_of s)
                 (Some (Client.object_literal
                          [("to_status", Some (JStr toStatus));
                           ("reason", Some JNull)]))))
  | _ => None
  end.

(** The error line of the component of an event. *)
Definition error_line (e : event) (s : state) : string :=
  match e with
  | LoginSubmit => LoginSt.error (loginPage s)
  | RegisterSubmit => RegisterSt.error (registerPage s)
  | StudentRefresh | StudentCreateDraft
  | StudentSubmit _ | StudentWithdraw _ => StudentSt.error (student s)
  | AdminRefresh | AdminChangeStatus _ _ => AdminSt.error (admin s)
  | _ => EmptyString
  end.

(** The message a handler shows when the error has none. *)
Definition fallback_message (e : event) : string :=
  match e with
  | LoginSubmit => "Login failed"
  | RegisterSubmit => "Registration failed"
  | StudentRefresh | AdminRefresh => "Failed to load applications"
  | StudentCreateDraft => "Failed to create application"
  | StudentSubmit _ => "Failed to submit application"
  | StudentWithdraw _ => "Failed to withdraw application"
  | AdminChangeStatus _ _ => "Failed to change status"
  | _ => EmptyString
  end.

(** The first request of the handlers that call the API in a [try]. *)
Definition first_request (s : state) (e : event) : option FetchInit :=
  match e with
  | LoginSubmit => Some (login_request s)
  | RegisterSubmit => Some (register_request s)
  | StudentRefresh => Some (list_my_request s)
  | AdminRefresh =>
      Some (Client.request_init
              (Client.mkRequestArgs (Some (ShellSt.apiBase (shell s)))
                 ("/admin/applications?"
                  ++ Client.URLSearchParams.toString
                       (Client.adminListParams
                          (AdminDashboard.or_null (AdminSt.status (admin s)))
                          (AdminDashboard.or_null (AdminSt.q (admin s)))
                          None None))
                 (Some "GET") (token_of s) None))
  | _ => change_request s e
  end.

(** The request with which a dashboard lists again after a change. *)
Definition list_request (s : state) (e : event) : option FetchInit :=
  match e with
  | AdminChangeStatus _ _ => first_request s AdminRefresh
  | _ => Some (list_my_request s)
  end.

(** The number of occurrences of a character. *)
Fixpoint count_char (c : ascii) (s : string) : nat :=
  match s with
  | EmptyString => 0
  | String x rest => (if Ascii.eqb x c then 1 else 0) + count_char c rest
  end.

(** The answers of a sign-in that succeeds for a user who is only admin. *)
Definition an_admin : json :=
  JObj [("email", JStr "admin@example.com"); ("roles", JArr [JStr "admin"])].

Definition admin_sign_in : network :=
  scripted [Responded (json_response 200 (JObj [("access_token", JStr "T2")]));
            Responded (json_response 200 an_admin)].

(** A list of two applications, as the backend sends it. *)
Definition two_applications : json :=
  JArr [JObj [("id", JNum 1); ("program", JStr "Computer Science");
              ("term", JStr "Fall 2026"); ("status", JStr "draft")];
        JObj [("id", JNum 2); ("program", JStr "Physics");
              ("term", JStr "Fall 2026"); ("status", JStr "approved")]].

(** ** Reading a query string

    The parser of the URL standard for application/x-www-form-urlencoded,
    which a server applies to the query: the text is split at every
    ampersand, empty pieces are skipped, each piece is cut at its first
    equals sign, a plus sign is a space and a percent sign with two hex
    digits is a byte. *)
Module Query.

Definition hex_value (c : ascii) : option nat :=
  let n := nat_of_ascii c in
  if Nat.leb 48 n && Nat.leb n 57 then Some (n - 48)
  else if Nat.leb 65 n && Nat.leb n 70 then Some (n - 55)
  else if Nat.leb 97 n && Nat.leb n 102 then Some (n - 87)
  else None.

Fixpoint decode (s : string) : string :=
  match s with
  | EmptyString => EmptyString
  | String c rest =>
      if Ascii.eqb c "+" then String " " (decode rest)
      else if Ascii.eqb c "%" then
        match rest with
        | String h1 (String h2 rest') =>
            match hex_value h1, hex_value h2 with
            | Some a, Some b => String (ascii_of_nat (16 * a + b)) (decode rest')
            | _, _ => String c (decode rest)
            end
        | _ => String c (decode rest)
        end
      else String c (decode rest)
  end.

(** The pieces of a text between the occurrences of a separator. *)
Fixpoint split (sep : ascii) (s : string) : list string :=
  match s with
  | EmptyString => [EmptyString]
  | String c rest =>
      if Ascii.eqb c sep then EmptyString :: split sep rest
      else match split sep rest with
           | [] => [String c EmptyString]
           | piece :: pieces => String c piece :: pieces
           end
  end.

(** A text cut at the first occurrence of a separator. *)
Fixpoint cut (sep : ascii) (s : string) : string * string :=
  match s with
  | EmptyString => (EmptyString, EmptyString)
  | String c rest =>
      if Ascii.eqb c sep then (EmptyString, rest)
      else (String c (fst (cut sep rest)), snd (cut sep rest))
  end.

Definition parse (query : string) : list (string * string) :=
  map (fun piece => (decode (fst (cut "=" piece)), decode (snd (cut "=" piece))))
    (filter (fun piece => negb (Str.is_empty piece)) (split "&" query)).

End Query.

(** A value that React accepts where a cell holds it. *)
Definition cell_valid (v : jsval) : bool :=
  match v with
  | Some j => valid_child j
  | None => true
  end.

(** The four cells of the row of an application in the student table are
    accepted: none is an object, or an array that holds one. *)
Definition student_cells_valid (a : json) : bool :=
  forallb (fun k => cell_valid (Js.prop a k))
    ["id"; "program"; "term"; "status"].

(** The row of the student table for an application that is not [null]. *)
Definition student_row (busy : bool) (a : json) : StudentView.row :=
  StudentView.mk_row (Js.prop a "id") (Js.prop a "id") (Js.prop a "program")
    (Js.prop a "term") (Js.prop a "status")
    (StatusPill (Js.prop a "status"))
    (StudentDashboard.submit_disabled busy (Js.prop a "status"))
    (StudentDashboard.withdraw_disabled busy (Js.prop a "status")).

(** The row of the admin table for an application that is not [null]. *)
Definition admin_row (busy : bool) (a : json) : AdminView.row :=
  AdminView.mk_row (Js.prop a "id") (Js.prop a "id")
    (Js.prop a "student_user_id") (Js.prop a "program") (Js.prop a "term")
    (Js.prop a "status") (StatusPill (Js.prop a "status"))
    [("in_review",
      AdminDashboard.in_review_disabled busy (Js.prop a "status"));
     ("needs_info",
      AdminDashboard.needs_info_disabled busy (Js.prop a "status"));
     ("approved", AdminDashboard.approve_disabled busy (Js.prop a "status"));
     ("rejected", AdminDashboard.reject_disabled busy (Js.prop a "status"))].

(** The buttons of a row of the student table as the specification has
    them, for the busy flag of the dashboard and the application of the
    row: the row shows the status of the application, and each button is
    enabled exactly when the dashboard is not busy and the status allows
    it. *)
Definition student_buttons_spec (busy : bool) (a : json)
    (r : StudentView.row) : Prop :=
  StudentView.status r = Js.prop a "status"
  /\ (StudentView.submit_disabled r = false
      <-> busy = false
          /\ status_in ["draft"; "needs_info"] (StudentView.status r))
  /\ (StudentView.withdraw_disabled r = false
      <-> busy = false
          /\ ~ status_in ["approved"; "rejected"; "withdrawn"]
                 (StudentView.status r)).

(** The same for a row of the admin table, whose four buttons ask for
    in_review, needs_info, approved and rejected, in this order. *)
Definition admin_buttons_spec (busy : bool) (a : json)
    (r : AdminView.row) : Prop :=
  AdminView.status r = Js.prop a "status"
  /\ exists in_review needs_info approve reject : bool,
       AdminView.buttons r
       = [("in_review", in_review); ("needs_info", needs_info);
          ("approved", approve); ("rejected", reject)]
       /\ (in_review = false
           <-> busy = false
               /\ status_in ["submitted"; "needs_info"] (AdminView.status r))
       /\ (needs_info = false
           <-> busy = false
               /\ status_in ["submitted"; "in_review"] (AdminView.status r))
       /\ (approve = false
           <-> busy = false /\ AdminView.status r = Some (JStr "in_review"))
       /\ (reject = false
           <-> busy = false
               /\ status_in ["submitted"; "in_review"; "needs_info"; "draft"]
                    (AdminView.status r)).

(** A list of applications as the admin list sends it. *)
Definition two_admin_applications : json :=
  JArr [JObj [("id", JNum 1); ("student_user_id", JNum 10);
              ("program", JStr "Computer Science");
              ("term", JStr "Fall 2026"); ("status", JStr "in_review")];
        JObj [("id", JNum 2); ("student_user_id", JNum 11);
              ("program", JStr "Physics");
              ("term", JStr "Fall 2026"); ("status", JStr "approved")]].

(* end of definitions *)

(** * Properties *)

Example stringify_example :
  Js.JSON_stringify
    (JObj [("a", JArr [JNum 1; JNull; JBool true]); ("b", JStr "x/y")])
  = "{" ++ Js.quote "a" ++ ":[1,null,true]," ++ Js.quote "b" ++ ":" ++ Js.quote "x/y" ++ "}".
Proof. reflexivity. Qed.

Example to_String_examples :
  Js.to_String (JArr [JNum 1; JNull; JArr [JNum (-2); JStr "a"]]) = "1,,-2,a"
  /\ Js.to_String (JNum 0) = "0"
  /\ Js.to_String (JNum 404) = "404".
Proof. repeat split; reflexivity. Qed.

Example replace_trailing_slash_examples :
  Str.replace_trailing_slash "http://h:3001/" = "http://h:3001"
  /\ Str.replace_trailing_slash "http://h//" = "http://h/"
  /\ Str.replace_trailing_slash "/" = EmptyString
  /\ Str.replace_trailing_slash "a/b" = "a/b".
Proof. repeat split; reflexivity. Qed.

(** ** The request of an API call *)

(** [request] performs exactly one [fetch]; its outcome is
    [Client.request_result] of the answer. *)
Lemma run_request (net : network) (a : Client.RequestArgs) :
  run net (Client.request a)
  = (Client.request_result (net 0%nat (Client.request_init a)),
     [(Client.request_init a, net 0%nat (Client.request_init a))]).
Proof. reflexivity. Qed.

(** ** Base URL *)

Lemma append_slash_nonempty (b : string) :
  exists c rest, b ++ "/" = String c rest.
Proof. destruct b as [|c b]; simpl; eauto. Qed.

Lemma ends_with_slash_append (b : string) : ends_with_slash (b ++ "/") = true.
Proof.
  induction b as [|c b IH]; [reflexivity|].
  destruct (append_slash_nonempty b) as (c' & rest & E).
  simpl. rewrite E. rewrite <- E. exact IH.
Qed.

Lemma without_last_append (b : string) (c : ascii) :
  without_last (b ++ String c EmptyString) = b.
Proof.
  induction b as [|c0 b IH]; [reflexivity|].
  simpl. destruct b as [|c1 b]; [reflexivity|].
  simpl in *. now rewrite IH.
Qed.

Lemma replace_trailing_slash_spec (b : string) :
  Str.replace_trailing_slash b
  = if ends_with_slash b then without_last b else b.
Proof.
  induction b as [|c b IH]; [reflexivity|].
  destruct b as [|c1 b].
  - simpl. now destruct (Ascii.eqb c "/").
  - change (Str.replace_trailing_slash (String c (String c1 b)))
      with (String c (Str.replace_trailing_slash (String c1 b))).
    change (ends_with_slash (String c (String c1 b)))
      with (ends_with_slash (String c1 b)).
    change (without_last (String c (String c1 b)))
      with (String c (without_last (String c1 b))).
    rewrite IH. now destruct (ends_with_slash (String c1 b)).
Qed.

Lemma append_assoc (a b c : string) : (a ++ b) ++ c = a ++ (b ++ c).
Proof. induction a as [|x a IH]; simpl; [reflexivity|now rewrite IH]. Qed.

Lemma url_request_init (a : Client.RequestArgs) :
  url (Client.request_init a)
  = Client.normalizeBase (Client.apiBase a) ++ Client.path a.
Proof. reflexivity. Qed.

(** C9. The URL of a request is the base without one trailing slash, when
    it has one, followed by the path: a base that ends in two slashes keeps
    one of them, and without a base the URL is the path alone. *)
Theorem C9_request_url :
  forall (net : network) (base : option string) (p : string)
         (m : option string) (t bd : jsval),
    sent net (Client.request (Client.mkRequestArgs base p m t bd))
    = [Client.request_init (Client.mkRequestArgs base p m t bd)]
    /\ url (Client.request_init (Client.mkRequestArgs base p m t bd))
       = match base with
         | None => p
         | Some b => (if ends_with_slash b then without_last b else b) ++ p
         end
    /\ (forall b,
          url (Client.request_init (Client.mkRequestArgs (Some (b ++ "/")) p m t bd))
          = b ++ p)
    /\ (forall b,
          url (Client.request_init (Client.mkRequestArgs (Some (b ++ "//")) p m t bd))
          = b ++ "/" ++ p).
Proof.
  intros net base p m t bd.
  assert (G : forall b, Client.normalizeBase (Some (b ++ "/")) = b).
  { intro b. unfold Client.normalizeBase.
    rewrite replace_trailing_slash_spec, ends_with_slash_append.
    apply without_last_append. }
  split; [reflexivity|]. rewrite !url_request_init. cbn [Client.apiBase Client.path].
  split; [|split].
  - destruct base as [b|]; [|reflexivity].
    unfold Client.normalizeBase. now rewrite replace_trailing_slash_spec.
  - intro b. rewrite url_request_init. cbn [Client.apiBase Client.path].
    now rewrite G.
  - intro b. rewrite url_request_init. cbn [Client.apiBase Client.path].
    replace (b ++ "//") with ((b ++ "/") ++ "/") by now rewrite append_assoc.
    rewrite G. now rewrite append_assoc.
Qed.

(** ** Error messages of failed requests *)

Lemma last_char_append (a b : string) :
  last_char (a ++ b)
  = match last_char b with
    | None => last_char a
    | Some c => Some c
    end.
Proof.
  induction a as [|x a IH]; simpl.
  - now destruct (last_char b).
  - rewrite IH. destruct (last_char b); [reflexivity|].
    now destruct (last_char a).
Qed.

Lemma last_char_uint (d : Decimal.uint) :
  match last_char (NilEmpty.string_of_uint d) with
  | None => True
  | Some c => json_final c = true
  end.
Proof.
  induction d; simpl; try exact I;
    destruct (last_char (NilEmpty.string_of_uint d)); auto.
Qed.

Lemma last_char_of_Z (n : Z) :
  exists c, last_char (Str.of_Z n) = Some c /\ json_final c = true.
Proof.
  assert (U : forall d, exists c,
             last_char (NilZero.string_of_uint d) = Some c
             /\ json_final c = true).
  { intro d. pose proof (last_char_uint d) as H.
    destruct d; simpl in *; try (eexists; split; reflexivity);
      destruct (last_char (NilEmpty.string_of_uint d)); eauto. }
  unfold Str.of_Z, NilZero.string_of_int.
  destruct (Z.to_int n) as [d|d].
  - apply U.
  - destruct (U d) as (c & E & F). exists c. simpl. now rewrite E.
Qed.

(** Whatever the value, [JSON.stringify] ends with one of the characters
    of [json_final]. *)
Lemma last_char_stringify (v : json) :
  exists c, last_char (Js.JSON_stringify v) = Some c /\ json_final c = true.
Proof.
  destruct v as [|[|]|n|s|items|fields]; simpl;
    try (eexists; split; reflexivity).
  - apply last_char_of_Z.
  - unfold Js.quote. exists Str.dquote. split; [|reflexivity].
    simpl. now rewrite last_char_append.
  - exists "]"%char. split; [|reflexivity]. now rewrite last_char_append.
  - exists "}"%char. split; [|reflexivity]. now rewrite last_char_append.
Qed.

(** A body that is declared as JSON and is not JSON makes [request] fail
    with the parser's exception, whatever the status. *)
Lemma malformed_declared_json (net : network) (a : Client.RequestArgs)
    (resp : Response) (m : string) :
  net 0%nat (Client.request_init a) = Responded resp ->
  declares_json resp = true ->
  parsed resp = NotJson m ->
  outcome net (Client.request a) = Throw (mkExn SyntaxErrorK m).
Proof.
  intros N D P. unfold outcome. rewrite run_request, N. simpl.
  unfold Client.parseJsonOrText. unfold declares_json in D.
  now rewrite D, P.
Qed.

(** C1, as the code has it.  When the answer has a status outside 200-299
    and its body could be read as [data], [request] throws an [Error].  Its
    message is the [detail] property of [data] when that is a string;
    otherwise, for an object or array, the status, a colon and
    [JSON.stringify] of [detail ?? data]; and for any other body (text, a
    JSON string, number, boolean or null) the status, a colon and
    [String(data)]. *)
Theorem C1_error_message :
  forall (net : network) (a : Client.RequestArgs) (resp : Response)
         (data : json),
    net 0%nat (Client.request_init a) = Responded resp ->
    ok resp = false ->
    Client.parseJsonOrText resp = Ok data ->
    exists msg,
      outcome net (Client.request a) = Throw (Error msg)
      /\ (forall d, Js.prop data "detail" = Some (JStr d) -> msg = d)
      /\ ((forall d, Js.prop data "detail" <> Some (JStr d)) ->
          Js.truthy data && Js.typeof_object data = true ->
          msg = Str.of_Z (status resp) ++ ": "
                ++ Js.JSON_stringify
                     (Js.nullish_or (Js.prop data "detail") data))
      /\ (Js.truthy data && Js.typeof_object data = false ->
          msg = Str.of_Z (status resp) ++ ": " ++ Js.to_String data).
Proof.
  intros net a resp data N K P.
  exists (message (Client.errorFromResponse (status resp) data)).
  unfold outcome. rewrite run_request, N. simpl. rewrite P, K. simpl.
  split.
  { unfold Client.errorFromResponse.
    destruct (Js.truthy data && Js.typeof_object data);
      [destruct (Js.nullish_or (Js.prop data "detail") data)|]; reflexivity. }
  unfold Client.errorFromResponse. repeat split.
  - intros d D. destruct data; try discriminate D.
    simpl in *. now rewrite D.
  - intros ND T. rewrite T.
    destruct data as [|b|n|s|items|fields]; try discriminate T;
      try reflexivity.
    + simpl in T. now rewrite andb_false_r in T.
    + simpl. destruct (Js.lookup "detail" fields) as [[|b|n|d|its|fs]|] eqn:E;
        simpl; try reflexivity.
      now elim (ND d).
  - intros T. now rewrite T.
Qed.

(** The theorem at an answer 401 with a [detail] string. *)
Lemma C1_error_message_witness :
  outcome
    (scripted
       [Responded
          (json_response 401 (JObj [("detail", JStr "Invalid token")]))])
    (Client.request
       (Client.mkRequestArgs (Some "http://localhost:3001") "/applications/my"
          (Some "GET") (Some (JStr "expired")) None))
  = Throw (Error "Invalid token").
Proof.
  destruct (C1_error_message
              (scripted
                 [Responded
                    (json_response 401
                       (JObj [("detail", JStr "Invalid token")]))])
              (Client.mkRequestArgs (Some "http://localhost:3001")
                 "/applications/my" (Some "GET") (Some (JStr "expired")) None)
              (json_response 401 (JObj [("detail", JStr "Invalid token")]))
              (JObj [("detail", JStr "Invalid token")])
              eq_refl eq_refl eq_refl)
    as (msg & E & D & _).
  rewrite E. now rewrite (D "Invalid token" eq_refl).
Defined.

(** C1 as stated fails on a text body: the message of a 404 whose body is
    the text Not Found is the status, a colon and the text itself; no
    [JSON.stringify] of any value ends it. *)
Lemma C1_text_body_not_stringified :
  ok (mkResponse 404 (Some "text/plain") "Not Found"
        (NotJson "Unexpected token N")) = false
  /\ outcome
       (scripted
          [Responded
             (mkResponse 404 (Some "text/plain") "Not Found"
                (NotJson "Unexpected token N"))])
       (Client.request
          (Client.mkRequestArgs (Some "http://localhost:3001")
             "/applications/my" (Some "GET") (Some (JStr "t")) None))
     = Throw (Error "404: Not Found")
  /\ (forall (v : json) (pre : string),
        "404: Not Found" <> pre ++ Js.JSON_stringify v).
Proof.
  split; [reflexivity|]. split; [reflexivity|].
  intros v pre E. apply (f_equal last_char) in E.
  rewrite last_char_append in E.
  destruct (last_char_stringify v) as (c & L & F).
  rewrite L in E. simpl in E. injection E as <-. discriminate F.
Qed.

(** ** Bodies of successful requests *)

(** C4, as the code has it.  For an answer with a status in 200-299,
    [request] returns the parsed body whenever the body is JSON, declared
    or not; the raw text when the body is not JSON and not declared as
    JSON; and it throws the parser's exception when the body is declared
    as JSON and is not. *)
Theorem C4_success_body :
  forall (net : network) (a : Client.RequestArgs) (resp : Response),
    net 0%nat (Client.request_init a) = Responded resp ->
    ok resp = true ->
    (forall v, parsed resp = Parsed v ->
               outcome net (Client.request a) = Ok v)
    /\ (forall m, parsed resp = NotJson m -> declares_json resp = false ->
                  outcome net (Client.request a) = Ok (JStr (text resp)))
    /\ (forall m, parsed resp = NotJson m -> declares_json resp = true ->
                  outcome net (Client.request a)
                  = Throw (mkExn SyntaxErrorK m)).
Proof.
  intros net a resp N K. unfold outcome. rewrite run_request, N. simpl.
  unfold Client.parseJsonOrText, declares_json.
  repeat split.
  - intros v P. rewrite P.
    destruct (Str.includes _ _); now rewrite K.
  - intros m P D. now rewrite P, D, K.
  - intros m P D. now rewrite P, D.
Qed.

(** The theorem at a 200 whose body is text that happens to be JSON. *)
Lemma C4_success_body_witness :
  outcome
    (scripted
       [Responded (mkResponse 200 (Some "text/plain") "[1,2]"
                     (Parsed (JArr [JNum 1; JNum 2])))])
    (Client.request
       (Client.mkRequestArgs (Some "http://localhost:3001") "/applications/my"
          (Some "GET") (Some (JStr "t")) None))
  = Ok (JArr [JNum 1; JNum 2]).
Proof.
  apply (C4_success_body
           (scripted
              [Responded (mkResponse 200 (Some "text/plain") "[1,2]"
                            (Parsed (JArr [JNum 1; JNum 2])))])
           (Client.mkRequestArgs (Some "http://localhost:3001")
              "/applications/my" (Some "GET") (Some (JStr "t")) None)
           (mkResponse 200 (Some "text/plain") "[1,2]"
              (Parsed (JArr [JNum 1; JNum 2])))
           eq_refl eq_refl).
  reflexivity.
Defined.

(** C4 as stated fails on a 204 that declares JSON and has an empty body:
    [request] returns nothing, it throws the parser's exception. *)
Lemma C4_declared_json_empty_body_throws :
  ok (mkResponse 204 (Some "application/json") EmptyString
        (NotJson "Unexpected end of JSON input")) = true
  /\ outcome
       (scripted
          [Responded
             (mkResponse 204 (Some "application/json") EmptyString
                (NotJson "Unexpected end of JSON input"))])
       (Client.request
          (Client.mkRequestArgs (Some "http://localhost:3001")
             "/applications/7/withdraw" (Some "POST") (Some (JStr "t")) None))
     = Throw (mkExn SyntaxErrorK "Unexpected end of JSON input").
Proof. split; reflexivity. Qed.

(** ** The query of the admin list *)

(** *** The query string read back

    Serializing and then parsing gives the parameters back: the encoding
    keeps the separators of the query apart from the texts of the
    parameters. *)

Lemma count_char_append (c : ascii) (a b : string) :
  count_char c (a ++ b) = count_char c a + count_char c b.
Proof. induction a as [|x a IH]; simpl; [reflexivity|rewrite IH; lia]. Qed.

Lemma count_char_encode_byte (x : ascii) :
  count_char "&" (Client.URLSearchParams.encode_byte x) = 0
  /\ count_char "=" (Client.URLSearchParams.encode_byte x) = 0.
Proof. destruct x as [[] [] [] [] [] [] [] []]; split; reflexivity. Qed.

Lemma count_char_encode (s : string) :
  count_char "&" (Client.URLSearchParams.encode s) = 0
  /\ count_char "=" (Client.URLSearchParams.encode s) = 0.
Proof.
  induction s as [|x s [IH1 IH2]]; [split; reflexivity|].
  simpl. rewrite !count_char_append, IH1, IH2.
  destruct (count_char_encode_byte x) as [-> ->]. split; reflexivity.
Qed.

Lemma decode_encode_byte (c : ascii) (rest : string) :
  Query.decode (Client.URLSearchParams.encode_byte c ++ rest)
  = String c (Query.decode rest).
Proof. destruct c as [[] [] [] [] [] [] [] []]; reflexivity. Qed.

Lemma decode_encode (s : string) :
  Query.decode (Client.URLSearchParams.encode s) = s.
Proof.
  induction s as [|c s IH]; [reflexivity|].
  cbn [Client.URLSearchParams.encode]. rewrite decode_encode_byte, IH.
  reflexivity.
Qed.

Lemma cut_append (sep : ascii) (a b : string) :
  count_char sep a = 0%nat ->
  Query.cut sep (a ++ String sep b) = (a, b).
Proof.
  induction a as [|x a IH]; cbn; intros H.
  - now rewrite Ascii.eqb_refl.
  - destruct (Ascii.eqb x sep); [discriminate H|].
    rewrite (IH H). reflexivity.
Qed.

Lemma split_last (sep : ascii) (a : string) :
  count_char sep a = 0%nat -> Query.split sep a = [a].
Proof.
  induction a as [|x a IH]; cbn; intros H; [reflexivity|].
  destruct (Ascii.eqb x sep); [discriminate H|]. now rewrite (IH H).
Qed.

Lemma split_append (sep : ascii) (a b : string) :
  count_char sep a = 0%nat ->
  Query.split sep (a ++ String sep b) = a :: Query.split sep b.
Proof.
  induction a as [|x a IH]; cbn; intros H.
  - now rewrite Ascii.eqb_refl.
  - destruct (Ascii.eqb x sep); [discriminate H|]. now rewrite (IH H).
Qed.

Lemma split_concat (l : list string) :
  (forall x, In x l -> count_char "&" x = 0%nat) ->
  l <> [] ->
  Query.split "&" (String.concat "&" l) = l.
Proof.
  induction l as [|x l IH]; intros H N; [now elim N|].
  destruct l as [|y l].
  - cbn. apply split_last. apply H. now left.
  - change (String.concat "&" (x :: y :: l))
      with (x ++ String "&" (String.concat "&" (y :: l))).
    rewrite split_append by (apply H; now left).
    rewrite IH; [reflexivity| |discriminate].
    intros z I. apply H. now right.
Qed.

Lemma parse_toString (params : Client.URLSearchParams.t) :
  Query.parse (Client.URLSearchParams.toString params) = params.
Proof.
  unfold Query.parse, Client.URLSearchParams.toString.
  destruct params as [|p params]; [reflexivity|].
  rewrite split_concat.
  - generalize (p :: params). clear. intros l.
    induction l as [|[n v] l IH]; [reflexivity|].
    cbn [map filter fst snd].
    replace (Str.is_empty
               (Client.URLSearchParams.encode n ++ "="
                ++ Client.URLSearchParams.encode v)) with false
      by (now destruct (Client.URLSearchParams.encode n)).
    cbn [negb map]. rewrite IH.
    change (Client.URLSearchParams.encode n ++ "="
            ++ Client.URLSearchParams.encode v)
      with (Client.URLSearchParams.encode n
            ++ String "=" (Client.URLSearchParams.encode v)).
    rewrite cut_append by apply count_char_encode.
    cbn [fst snd]. now rewrite !decode_encode.
  - intros x I. apply in_map_iff in I. destruct I as ([n v] & <- & _).
    cbn [fst snd]. rewrite !count_char_append.
    destruct (count_char_encode n) as [-> _].
    destruct (count_char_encode v) as [-> _]. reflexivity.
  - discriminate.
Qed.

Lemma adminListParams_spec (status q limit offset : jsval) :
  Client.adminListParams status q limit offset
  = ((if Js.truthy_val status
      then [("status", Js.to_String_val status)] else [])
     ++ (if Js.truthy_val q then [("q", Js.to_String_val q)] else [])
     ++ [("limit", Js.to_String (match limit with
                                 | Some v => v
                                 | None => JNum 50
                                 end));
         ("offset", Js.to_String (match offset with
                                  | Some v => v
                                  | None => JNum 0
                                  end))])%list.
Proof.
  unfold Client.adminListParams.
  destruct (Js.truthy_val status), (Js.truthy_val q); reflexivity.
Qed.

(** C7. [apiAdminListApplications] sends one GET to /admin/applications
    with a query string.  Read as the URL standard reads a query, that
    string holds these parameters, in this order and no others: status with
    the given text, exactly when a truthy (non-empty) status is given; q
    with the given text, exactly when a truthy (non-empty) search string is
    given; then limit and offset, which are 50 and 0 when the caller leaves
    them out.  With no filter and no paging the query is
    limit=50&offset=0. *)
Theorem C7_admin_list_query :
  forall (net : network) (base : option string)
         (token status q limit offset : jsval),
    exists query : string,
      sent net
        (Client.apiAdminListApplications base token status q limit offset)
      = [Client.request_init
           (Client.mkRequestArgs base ("/admin/applications?" ++ query)
              (Some "GET") token None)]
      /\ Query.parse query
         = ((if Js.truthy_val status
             then [("status", Js.to_String_val status)] else [])
            ++ (if Js.truthy_val q then [("q", Js.to_String_val q)] else [])
            ++ [("limit", Js.to_String (match limit with
                                        | Some v => v
                                        | None => JNum 50
                                        end));
                ("offset", Js.to_String (match offset with
                                         | Some v => v
                                         | None => JNum 0
                                         end))])%list
      /\ (In "status" (map fst (Query.parse query))
          <-> Js.truthy_val status = true)
      /\ (In "q" (map fst (Query.parse query)) <-> Js.truthy_val q = true)
      /\ In "limit" (map fst (Query.parse query))
      /\ In "offset" (map fst (Query.parse query))
      /\ (limit = None -> In ("limit", "50") (Query.parse query))
      /\ (offset = None -> In ("offset", "0") (Query.parse query))
      /\ (Js.truthy_val status = false -> Js.truthy_val q = false ->
          limit = None -> offset = None ->
          query = "limit=50&offset=0")
      /\ (forall s, Js.truthy_val (Some (JStr s)) = true <-> s <> EmptyString).
Proof.
  intros net base token status q limit offset.
  exists (Client.URLSearchParams.toString
            (Client.adminListParams status q limit offset)).
  split; [reflexivity|].
  rewrite parse_toString, adminListParams_spec.
  split; [reflexivity|].
  repeat split.
  - destruct (Js.truthy_val status); [reflexivity|].
    destruct (Js.truthy_val q); simpl; intros H;
      repeat (destruct H as [H|H]; try discriminate H); contradiction.
  - intros ->. simpl. now left.
  - destruct (Js.truthy_val q); [reflexivity|].
    destruct (Js.truthy_val status); simpl; intros H;
      repeat (destruct H as [H|H]; try discriminate H); contradiction.
  - intros ->. destruct (Js.truthy_val status); simpl; auto.
  - destruct (Js.truthy_val status), (Js.truthy_val q); simpl; auto.
  - destruct (Js.truthy_val status), (Js.truthy_val q); simpl; auto 6.
  - intros ->. destruct (Js.truthy_val status), (Js.truthy_val q); simpl; auto.
  - intros ->. destruct (Js.truthy_val status), (Js.truthy_val q);
      simpl; auto 6.
  - intros S Q -> ->. rewrite S, Q. reflexivity.
  - destruct s; simpl; [discriminate|intros _; discriminate].
  - destruct s; simpl; [congruence|reflexivity].
Qed.


(** A search text with separators in it adds no parameter. *)
Example admin_list_query_of_a_search :
  Client.URLSearchParams.toString
    (Client.adminListParams (Some (JStr "submitted"))
       (Some (JStr "a b&status=approved")) None (Some (JNum 100)))
  = "status=submitted&q=a+b%26status%3Dapproved&limit=50&offset=100".
Proof. reflexivity. Qed.


Example admin_list_query_example :
  Client.URLSearchParams.toString
    (Client.adminListParams (Some (JStr "in_review")) (Some (JStr "data science"))
       None None)
  = "status=in_review&q=data+science&limit=50&offset=0"
  /\ Client.URLSearchParams.toString
       (Client.adminListParams (Some JNull) (Some JNull) None None)
     = "limit=50&offset=0".
Proof. split; reflexivity. Qed.

(** ** Body and headers of the nine operations *)

(** C8, as the code has it.  Each of the nine operations sends one request
    with the header Content-Type: application/json.  Register, login,
    create-application and admin-change-status send the JSON text of their
    payload as body; the other five send no body.  The seven operations
    that take a token send Authorization: Bearer and the token when the
    token is truthy and no Authorization header otherwise; register and
    login never send one. *)
Theorem C8_wire_of_operations :
  forall (net : network) (base : option string)
         (token email password first_name last_name program term
            appId to_status reason status q limit offset : jsval),
    let json_type := Some "application/json" in
    map wire (sent net (Client.apiRegister base email password
                          first_name last_name))
    = [(json_type, None,
        Some (Js.JSON_stringify
                (Client.object_literal
                   [("email", email); ("password", password);
                    ("first_name", first_name); ("last_name", last_name)])))]
    /\ map wire (sent net (Client.apiLogin base email password))
       = [(json_type, None,
           Some (Js.JSON_stringify
                   (Client.object_literal
                      [("email", email); ("password", password)])))]
    /\ map wire (sent net (Client.apiMe base token))
       = [(json_type, bearer token, None)]
    /\ map wire (sent net (Client.apiListMyApplications base token))
       = [(json_type, bearer token, None)]
    /\ map wire (sent net (Client.apiCreateApplication base token program term))
       = [(json_type, bearer token,
           Some (Js.JSON_stringify
                   (Client.object_literal
                      [("program", program); ("term", term)])))]
    /\ map wire (sent net (Client.apiSubmitApplication base token appId))
       = [(json_type, bearer token, None)]
    /\ map wire (sent net (Client.apiWithdrawApplication base token appId))
       = [(json_type, bearer token, None)]
    /\ map wire (sent net (Client.apiAdminListApplications base token
                             status q limit offset))
       = [(json_type, bearer token, None)]
    /\ map wire (sent net (Client.apiAdminChangeStatus base token appId
                             to_status reason))
       = [(json_type, bearer token,
           Some (Js.JSON_stringify
                   (Client.object_literal
                      [("to_status", to_status); ("reason", reason)])))].
Proof.
  intros. unfold bearer, sent, wire. simpl.
  unfold Client.request_headers.
  destruct (Js.truthy_val token); repeat split; reflexivity.
Qed.

(** C8 as stated fails on login and on fetch-current-user: the login
    request carries no Authorization header, and the request for the current
    user carries no body. *)
Lemma C8_login_has_no_bearer_me_has_no_body :
  map wire
    (sent (scripted [])
       (Client.apiLogin (Some "http://localhost:3001")
          (Some (JStr "student1@example.com")) (Some (JStr "password123"))))
  = [(Some "application/json", None,
      Some ("{" ++ Js.quote "email" ++ ":" ++ Js.quote "student1@example.com"
            ++ "," ++ Js.quote "password" ++ ":" ++ Js.quote "password123"
            ++ "}"))]
  /\ map wire
       (sent (scripted [])
          (Client.apiMe (Some "http://localhost:3001") (Some (JStr "T1"))))
     = [(Some "application/json", Some "Bearer T1", None)].
Proof. split; reflexivity. Qed.

(** ** Buttons of a row *)

Lemma literal_includes_spec (xs : list string) (status : jsval) :
  Js.literal_includes xs status = true <-> status_in xs status.
Proof.
  unfold status_in. split.
  - destruct status as [[| | |s| |]|]; simpl; try discriminate.
    intros H. exists s. split; [reflexivity|].
    apply existsb_exists in H. destruct H as (x & I & E).
    apply String.eqb_eq in E. now subst x.
  - intros (s & -> & I). simpl. apply existsb_exists.
    exists s. split; [exact I|apply String.eqb_refl].
Qed.

Lemma literal_includes_false (xs : list string) (status : jsval) :
  Js.literal_includes xs status = false <-> ~ status_in xs status.
Proof.
  rewrite <- literal_includes_spec.
  destruct (Js.literal_includes xs status); split; congruence.
Qed.

(** The six disabled attributes, as functions of the busy flag and of a
    status. *)
Lemma button_rules (busy : bool) (status : jsval) :
  (StudentDashboard.submit_disabled busy status = false
   <-> busy = false /\ status_in ["draft"; "needs_info"] status)
  /\ (StudentDashboard.withdraw_disabled busy status = false
      <-> busy = false
          /\ ~ status_in ["approved"; "rejected"; "withdrawn"] status)
  /\ (AdminDashboard.in_review_disabled busy status = false
      <-> busy = false /\ status_in ["submitted"; "needs_info"] status)
  /\ (AdminDashboard.needs_info_disabled busy status = false
      <-> busy = false /\ status_in ["submitted"; "in_review"] status)
  /\ (AdminDashboard.approve_disabled busy status = false
      <-> busy = false /\ status = Some (JStr "in_review"))
  /\ (AdminDashboard.reject_disabled busy status = false
      <-> busy = false
          /\ status_in ["submitted"; "in_review"; "needs_info"; "draft"]
               status).
Proof.
  unfold StudentDashboard.submit_disabled, StudentDashboard.withdraw_disabled,
    AdminDashboard.in_review_disabled, AdminDashboard.needs_info_disabled,
    AdminDashboard.approve_disabled, AdminDashboard.reject_disabled.
  rewrite !orb_false_iff, !negb_false_iff, !literal_includes_spec,
    literal_includes_false.
  repeat split; try tauto.
  - destruct H as [_ (s & -> & [<-|[]])]. reflexivity.
  - destruct H as [_ ->]. exists "in_review". simpl. auto.
Qed.

(** ** Rows of the tables *)

Lemma mount_children_spec (vs : list jsval) :
  mount_children vs
  = if forallb cell_valid vs then Ok tt
    else Throw (Error "Objects are not valid as a React child").
Proof.
  induction vs as [|[j|] vs IH]; cbn; [reflexivity| |exact IH].
  destruct (valid_child j); cbn; [exact IH|reflexivity].
Qed.

(** What mounts is what was built. *)
Lemma map_result_same {A : Type} (f : A -> result A) :
  (forall x y, f x = Ok y -> y = x) ->
  forall l l', map_result f l = Ok l' -> l' = l.
Proof.
  intros F. induction l as [|x l IH]; cbn; intros l' H.
  - now injection H as <-.
  - destruct (f x) as [y|] eqn:E; [|discriminate].
    destruct (map_result f l) as [ys|]; [|discriminate].
    injection H as <-. rewrite (F x y E), (IH ys eq_refl). reflexivity.
Qed.

Lemma student_rows_built (busy : bool) (items : list json) :
  ~ In JNull items ->
  map_result (StudentView.row_of busy) items
  = Ok (map (student_row busy) items).
Proof.
  induction items as [|a items IH]; intros N; [reflexivity|].
  cbn. rewrite IH by (intros H; apply N; now right).
  destruct a; try reflexivity. elim N. now left.
Qed.

Lemma student_rows_null (busy : bool) (items : list json) :
  In JNull items ->
  exists msg,
    map_result (StudentView.row_of busy) items
    = Throw (mkExn TypeErrorK msg).
Proof.
  induction items as [|a items IH]; intros I; [destruct I|].
  cbn. destruct (StudentView.row_of busy a) as [r|e] eqn:R.
  - destruct I as [->|I]; [discriminate R|].
    destruct (IH I) as (msg & ->). now exists msg.
  - destruct a; try discriminate R. injection R as <-. eexists. reflexivity.
Qed.

Lemma admin_rows_built (busy : bool) (items : list json) :
  ~ In JNull items ->
  map_result (AdminView.row_of busy) items = Ok (map (admin_row busy) items).
Proof.
  induction items as [|a items IH]; intros N; [reflexivity|].
  cbn. rewrite IH by (intros H; apply N; now right).
  destruct a; try reflexivity. elim N. now left.
Qed.

Lemma admin_rows_null (busy : bool) (items : list json) :
  In JNull items ->
  exists msg,
    map_result (AdminView.row_of busy) items = Throw (mkExn TypeErrorK msg).
Proof.
  induction items as [|a items IH]; intros I; [destruct I|].
  cbn. destruct (AdminView.row_of busy a) as [r|e] eqn:R.
  - destruct I as [->|I]; [discriminate R|].
    destruct (IH I) as (msg & ->). now exists msg.
  - destruct a; try discriminate R. injection R as <-. eexists. reflexivity.
Qed.

Lemma in_dec_null (items : list json) : In JNull items \/ ~ In JNull items.
Proof.
  induction items as [|a items [I|N]].
  - right. intros [].
  - left. now right.
  - destruct a; try (right; intros [H|H]; [discriminate H|now apply N]).
    left. now left.
Qed.

(** A student table that rendered has one row for each application. *)
Lemma student_table_rows (st : StudentSt.t) (rows : list StudentView.row) :
  StudentView.render st = Ok (StudentView.Rows rows) ->
  exists items,
    StudentSt.apps st = JArr items
    /\ rows = map (student_row (StudentSt.busy st)) items.
Proof.
  unfold StudentView.render, apps_map.
  destruct (length_is_zero (StudentSt.apps st)) as [[|]|]; try discriminate.
  destruct (StudentSt.apps st) as [| | | |items|]; try discriminate.
  intros H. exists items. split; [reflexivity|].
  destruct (in_dec_null items) as [I|N].
  - destruct (student_rows_null (StudentSt.busy st) items I) as (msg & E).
    rewrite E in H. discriminate H.
  - rewrite (student_rows_built _ items N) in H.
    destruct (map_result StudentView.mount_row _) as [mounted|] eqn:M;
      [|discriminate H].
    injection H as <-. apply (map_result_same StudentView.mount_row); auto.
    intros x y. unfold StudentView.mount_row.
    destruct (mount_children _); [|discriminate]. now intros [= <-].
Qed.

(** An admin table that rendered has one row for each application. *)
Lemma admin_table_rows (st : AdminSt.t) (rows : list AdminView.row) :
  AdminView.render st = Ok (AdminView.Rows rows) ->
  exists items,
    AdminSt.apps st = JArr items
    /\ rows = map (admin_row (AdminSt.busy st)) items.
Proof.
  unfold AdminView.render, apps_map.
  destruct (length_is_zero (AdminSt.apps st)) as [[|]|]; try discriminate.
  destruct (AdminSt.apps st) as [| | | |items|]; try discriminate.
  intros H. exists items. split; [reflexivity|].
  destruct (in_dec_null items) as [I|N].
  - destruct (admin_rows_null (AdminSt.busy st) items I) as (msg & E).
    rewrite E in H. discriminate H.
  - rewrite (admin_rows_built _ items N) in H.
    destruct (map_result AdminView.mount_row _) as [mounted|] eqn:M;
      [|discriminate H].
    injection H as <-. apply (map_result_same AdminView.mount_row); auto.
    intros x y. unfold AdminView.mount_row.
    destruct (mount_children _); [|discriminate]. now intros [= <-].
Qed.

(** C10. In a table that rendered, every row stands for one application
    of the dashboard, in order, and shows its status; each button of the row
    is enabled exactly when the dashboard is not busy and that status is as
    follows.  Student table: Submit for draft and needs_info, Withdraw for
    everything but approved, rejected and withdrawn.  Admin table: the four
    buttons ask for in_review, needs_info, approved and rejected, in this
    order; In review is enabled for submitted and needs_info, Needs info for
    submitted and in_review, Approve for in_review, Reject for submitted,
    in_review, needs_info and draft. *)
Theorem C10_buttons_enabled :
  (forall (st : StudentSt.t) (rows : list StudentView.row),
     StudentView.render st = Ok (StudentView.Rows rows) ->
     exists items,
       StudentSt.apps st = JArr items
       /\ Forall2 (student_buttons_spec (StudentSt.busy st)) items rows)
  /\ (forall (st : AdminSt.t) (rows : list AdminView.row),
        AdminView.render st = Ok (AdminView.Rows rows) ->
        exists items,
          AdminSt.apps st = JArr items
          /\ Forall2 (admin_buttons_spec (AdminSt.busy st)) items rows).
Proof.
  split; intros st rows R.
  - destruct (student_table_rows st rows R) as (items & A & ->).
    exists items. split; [exact A|]. clear.
    induction items as [|a items IH]; constructor; [|exact IH].
    unfold student_buttons_spec, student_row.
    cbn [StudentView.status StudentView.submit_disabled
         StudentView.withdraw_disabled].
    split; [reflexivity|].
    destruct (button_rules (StudentSt.busy st) (Js.prop a "status"))
      as (R1 & R2 & _).
    split; [exact R1|exact R2].
  - destruct (admin_table_rows st rows R) as (items & A & ->).
    exists items. split; [exact A|]. clear.
    induction items as [|a items IH]; constructor; [|exact IH].
    unfold admin_buttons_spec, admin_row.
    cbn [AdminView.status AdminView.buttons]. split; [reflexivity|].
    destruct (button_rules (AdminSt.busy st) (Js.prop a "status"))
      as (_ & _ & R3 & R4 & R5 & R6).
    eexists _, _, _, _. split; [reflexivity|].
    split; [exact R3|]. split; [exact R4|]. split; [exact R5|exact R6].
Qed.

(** The theorem at two tables of two applications each, not busy: the
    draft can be submitted and withdrawn, the approved application neither;
    the application in review can be sent back, approved or rejected, the
    approved one nothing. *)
Lemma C10_buttons_enabled_witness :
  exists (srows : list StudentView.row) (arows : list AdminView.row),
    StudentView.render (StudentSt.setApps two_applications StudentSt.init)
    = Ok (StudentView.Rows srows)
    /\ AdminView.render (AdminSt.setApps two_admin_applications AdminSt.init)
       = Ok (AdminView.Rows arows)
    /\ map StudentView.submit_disabled srows = [false; true]
    /\ map StudentView.withdraw_disabled srows = [false; true]
    /\ map AdminView.buttons arows
       = [[("in_review", true); ("needs_info", false);
           ("approved", false); ("rejected", false)];
          [("in_review", true); ("needs_info", true);
           ("approved", true); ("rejected", true)]]
    /\ (exists items,
          two_applications = JArr items
          /\ Forall2 (student_buttons_spec false) items srows)
    /\ (exists items,
          two_admin_applications = JArr items
          /\ Forall2 (admin_buttons_spec false) items arows).
Proof.
  eexists _, _.
  split; [reflexivity|]. split; [reflexivity|].
  split; [reflexivity|]. split; [reflexivity|]. split; [reflexivity|].
  split.
  - exact (proj1 C10_buttons_enabled
             (StudentSt.setApps two_applications StudentSt.init) _ eq_refl).
  - exact (proj2 C10_buttons_enabled
             (AdminSt.setApps two_admin_applications AdminSt.init) _ eq_refl).
Defined.

(** ** Route guards *)

(** C6. When the roles of the current user are a list: the routes /student
    and /admin redirect to /login when the token is falsy (empty); show the
    access-denied view when the token is truthy and the list lacks the role
    of the route; and show the dashboard exactly when the token is truthy
    and the list has the role. *)
Theorem C6_guarded_routes :
  forall (s : state) (rs : list json),
    AppShell.roles s = JArr rs ->
    let has role := existsb (Js.is_string role) rs in
    AppShell.render (set_location RStudent s)
    = Ok (if negb (Js.truthy_val (token_of s)) then VNavigate RLogin
          else if has "student" then VStudentDashboard
          else VAccessDenied "student")
    /\ AppShell.render (set_location RAdmin s)
       = Ok (if negb (Js.truthy_val (token_of s)) then VNavigate RLogin
             else if has "admin" then VAdminDashboard
             else VAccessDenied "admin")
    /\ (AppShell.render (set_location RStudent s) = Ok VStudentDashboard
        <-> Js.truthy_val (token_of s) = true /\ has "student" = true)
    /\ (AppShell.render (set_location RAdmin s) = Ok VAdminDashboard
        <-> Js.truthy_val (token_of s) = true /\ has "admin" = true)
    /\ Js.truthy_val (Some (JStr EmptyString)) = false.
Proof.
  intros s rs R has.
  assert (A : AppShell.render (set_location RStudent s)
              = Ok (if negb (Js.truthy_val (token_of s)) then VNavigate RLogin
                    else if has "student" then VStudentDashboard
                    else VAccessDenied "student")).
  { unfold AppShell.render, AppShell.student_element, RequireAuth, RequireRole,
      AppShell.roles, token_of in *.
    simpl. rewrite R. simpl. fold (has "student").
    destruct (Js.truthy_val _), (has "student"); reflexivity. }
  assert (B : AppShell.render (set_location RAdmin s)
              = Ok (if negb (Js.truthy_val (token_of s)) then VNavigate RLogin
                    else if has "admin" then VAdminDashboard
                    else VAccessDenied "admin")).
  { unfold AppShell.render, AppShell.admin_element, RequireAuth, RequireRole,
      AppShell.roles, token_of in *.
    simpl. rewrite R. simpl. fold (has "admin").
    destruct (Js.truthy_val _), (has "admin"); reflexivity. }
  rewrite A, B. repeat split; try reflexivity.
  - destruct (Js.truthy_val _); [reflexivity|discriminate].
  - destruct (Js.truthy_val _), (has "student"); simpl in *;
      congruence.
  - intros [-> ->]. reflexivity.
  - destruct (Js.truthy_val _); [reflexivity|discriminate].
  - destruct (Js.truthy_val _), (has "admin"); simpl in *;
      congruence.
  - intros [-> ->]. reflexivity.
Qed.

(** The theorem at a signed-in student: the student dashboard at /student,
    access denied at /admin. *)
Lemma C6_guarded_routes_witness :
  AppShell.render (set_location RStudent (signed_in "T1" a_student RHome))
  = Ok VStudentDashboard
  /\ AppShell.render (set_location RAdmin (signed_in "T1" a_student RHome))
     = Ok (VAccessDenied "admin").
Proof.
  destruct (C6_guarded_routes (signed_in "T1" a_student RHome)
              [JStr "student"] eq_refl) as (A & B & _).
  split; [exact A|exact B].
Defined.

(** ** Sessions *)

(** Symbolic execution of a handler: each answer of the network and each
    test on a token is split into its cases. *)
Ltac exec :=
  repeat first
    [ progress cbn
    | match goal with
      | |- context [match Client.request_result ?o with _ => _ end] =>
          destruct (Client.request_result o) eqn:?
      | |- context [match Js.member ?a ?k with _ => _ end] =>
          destruct (Js.member a k) eqn:?
      | |- context [if negb (Js.truthy_val ?t) then _ else _] =>
          destruct (Js.truthy_val t) eqn:?
      | |- context [if Js.truthy_val ?t then _ else _] =>
          destruct (Js.truthy_val t) eqn:?
      end ].

Ltac unfold_handlers :=
  unfold requests, after, dispatch, run, handler,
    LoginPage.submit, RegisterPage.submit, AppShell.onAuthed,
    AppShell.refreshMe, AppShell.onLogout,
    StudentDashboard.createDraft, StudentDashboard.refresh,
    StudentDashboard.submitApp, StudentDashboard.withdrawApp,
    AdminDashboard.refresh, AdminDashboard.changeStatus,
    session_after_auth, cleared, session,
    me_request, login_request, register_request, list_my_request in *.

Lemma header_authorization (token : jsval) :
  header "Authorization" (Client.request_headers token) = bearer token.
Proof.
  unfold Client.request_headers, bearer.
  destruct (Js.truthy_val token); reflexivity.
Qed.

(** Every request of an event other than the two sign-in forms carries the
    token of the state it was rendered in, and nothing when that is falsy. *)
Lemma requests_carry_token (net : network) (e : event) (s : state)
    (req : FetchInit) :
  e <> LoginSubmit -> e <> RegisterSubmit ->
  In req (requests net e s) ->
  header "Authorization" (headers req) = bearer (token_of s).
Proof.
  intros NL NR.
  destruct e; try congruence; unfold_handlers; exec; try tauto;
    intros H;
    repeat (destruct H as [<-|H]; [apply header_authorization|]);
    contradiction.
Qed.

(** The sign-in forms are rendered only without a token. *)
Lemma sign_in_forms_need_no_token (s : state) :
  Js.truthy_val (token_of s) = true ->
  AppShell.render s <> Ok VLoginPage /\ AppShell.render s <> Ok VRegisterPage.
Proof.
  intros T. unfold AppShell.render, AppShell.student_element,
    AppShell.admin_element, RequireAuth, RequireRole, AppShell.isAuthed.
  rewrite T.
  destruct (Js.includes (AppShell.roles s) "student") as [[|]|];
    destruct (Js.includes (AppShell.roles s) "admin") as [[|]|];
    destruct (location s); simpl; split; discriminate.
Qed.

(** The session after each event. *)
Lemma session_after_event (net : network) (e : event) (s : state) :
  match e with
  | Logout =>
      cleared (after net e s) /\ location (after net e s) = RLogin
  | RefreshSession =>
      if Js.truthy_val (token_of s) then
        match Client.request_result (net 0%nat (me_request s (token_of s)))
        with
        | Ok _ => session (after net e s) = session s
        | Throw _ =>
            cleared (after net e s)
            /\ location (after net e s) = location s
        end
      else session (after net e s) = session s
  | LoginSubmit =>
      session_after_auth net s (after net e s)
        (Client.request_result (net 0%nat (login_request s)))
  | RegisterSubmit =>
      session_after_auth net s (after net e s)
        (Client.request_result (net 0%nat (register_request s)))
  | _ => session (after net e s) = session s
  end.
Proof.
  destruct e as [f v| | | | | | | | | | |]; try destruct f;
    unfold_handlers; exec; unfold token_of; cbn;
    repeat split; congruence.
Qed.

(** What the router shows once the session is cleared. *)
Lemma view_when_cleared (s : state) :
  cleared s ->
  AppShell.render (AppShell.settle s)
  = Ok match location s with
       | RStudent | RAdmin | RLogin => VLoginPage
       | RRegister => VRegisterPage
       | RHome => VHome
       | ROther => VNotFound
       end.
Proof.
  intros [C M]. unfold session, token_of in C.
  injection C as T _.
  destruct s as [[base tok me lm] st loc lp rp stu adm].
  simpl in T, M. subst tok me. destruct loc; reflexivity.
Qed.

(** A sign-in whose answer holds a truthy token sends two requests: the
    authentication call, and the request for the current user with that
    token. *)
Lemma sign_in_requests (net : network) (s : state) (e : event)
    (auth_req : FetchInit) (data t : json) :
  (e = LoginSubmit /\ auth_req = login_request s)
  \/ (e = RegisterSubmit /\ auth_req = register_request s) ->
  Client.request_result (net 0%nat auth_req) = Ok data ->
  Js.member data "access_token" = Ok (Some t) ->
  Js.truthy t = true ->
  requests net e s = [auth_req; me_request s (Some t)].
Proof.
  intros [[-> ->]|[-> ->]] A M T; unfold_handlers; cbn; rewrite A; cbn;
    rewrite M; cbn; rewrite T; exec; reflexivity.
Qed.

(** The request of the admin dashboard: the filters of the form, when not
    empty, and the default page. *)
Lemma admin_refresh_query (net : network) (s : state) :
  requests net AdminRefresh s
  = [Client.request_init
       (Client.mkRequestArgs (Some (ShellSt.apiBase (shell s)))
          ("/admin/applications?"
           ++ Client.URLSearchParams.toString
                ((if Str.is_empty (AdminSt.status (admin s)) then []
                  else [("status", AdminSt.status (admin s))])
                 ++ (if Str.is_empty (AdminSt.q (admin s)) then []
                     else [("q", AdminSt.q (admin s))])
                 ++ [("limit", "50"); ("offset", "0")])%list)
          (Some "GET") (token_of s) None)].
Proof.
  unfold_handlers. unfold AdminDashboard.or_null.
  destruct (AdminSt.status (admin s)), (AdminSt.q (admin s));
    exec; reflexivity.
Qed.

(** The redirects do not look at the state of the student dashboard. *)
Lemma follow_on_student (f : StudentSt.t -> StudentSt.t) (s : state) :
  AppShell.follow (on_student f s) = on_student f (AppShell.follow s).
Proof.
  unfold AppShell.follow.
  change (AppShell.render (on_student f s)) with (AppShell.render s).
  now destruct (AppShell.render s) as [[]|].
Qed.

Lemma settle_on_student (f : StudentSt.t -> StudentSt.t) (s : state) :
  AppShell.settle (on_student f s) = on_student f (AppShell.settle s).
Proof. unfold AppShell.settle. now rewrite !follow_on_student. Qed.

(** C3, as the code has it.  Listing the own applications sends one request
    with the token of the session, and whatever the answer, also a failure
    for an invalid token, it leaves the token, local storage, the current
    user and the location as they were, so the same view is rendered and
    the router redirects only where it would have before; a failure puts
    its message in the error line of the dashboard and keeps the list. *)
Theorem C3_list_failure_is_shown_inline :
  forall (net : network) (s : state),
    requests net StudentRefresh s = [list_my_request s]
    /\ session (after net StudentRefresh s) = session s
    /\ shell (after net StudentRefresh s) = shell s
    /\ location (after net StudentRefresh s) = location s
    /\ AppShell.render (after net StudentRefresh s) = AppShell.render s
    /\ location (step net StudentRefresh s) = location (AppShell.settle s)
    /\ match Client.request_result (net 0%nat (list_my_request s)) with
       | Ok data =>
           StudentSt.apps (student (after net StudentRefresh s)) = data
           /\ StudentSt.error (student (after net StudentRefresh s))
              = EmptyString
       | Throw e =>
           StudentSt.apps (student (after net StudentRefresh s))
           = StudentSt.apps (student s)
           /\ StudentSt.error (student (after net StudentRefresh s))
              = Js.message_or e "Failed to load applications"
       end.
Proof.
  intros net s. unfold step. unfold_handlers.
  exec; rewrite !settle_on_student; repeat split; reflexivity.
Qed.

(** C3 as stated fails: with a token that the backend answers with 401,
    the refresh of the student dashboard keeps the token in the state and
    in local storage and stays on the dashboard, where it shows the
    message. *)
Lemma C3_invalid_token_keeps_session :
  session (step (scripted [unauthorized]) StudentRefresh
             (signed_in "expired" a_student RStudent))
  = (Some (JStr "expired"), Some "expired")
  /\ location (step (scripted [unauthorized]) StudentRefresh
                 (signed_in "expired" a_student RStudent))
     = RStudent
  /\ AppShell.render (step (scripted [unauthorized]) StudentRefresh
                        (signed_in "expired" a_student RStudent))
     = Ok VStudentDashboard
  /\ StudentSt.error
       (student (step (scripted [unauthorized]) StudentRefresh
                   (signed_in "expired" a_student RStudent)))
     = "Invalid token".
Proof. repeat split; reflexivity. Qed.

(** C5, as the code has it.  The session after an event: logout clears it
    and navigates to login; a refresh of the current user clears it when
    [apiMe] throws and leaves it otherwise; login and register store the
    token of a successful answer and then refresh the current user with
    it, which clears the session again when that throws; every other event
    leaves the session as it was.  Once the session is cleared, the router
    shows the login page at the guarded routes and at /login, and keeps the
    register page, the home page and the not-found page where the user is
    there. *)
Theorem C5_session_lifecycle :
  forall (net : network) (e : event) (s : state),
    match e with
    | Logout =>
        cleared (after net e s) /\ location (after net e s) = RLogin
    | RefreshSession =>
        if Js.truthy_val (token_of s) then
          match Client.request_result (net 0%nat (me_request s (token_of s)))
          with
          | Ok _ => session (after net e s) = session s
          | Throw _ =>
              cleared (after net e s)
              /\ location (after net e s) = location s
          end
        else session (after net e s) = session s
    | LoginSubmit =>
        session_after_auth net s (after net e s)
          (Client.request_result (net 0%nat (login_request s)))
    | RegisterSubmit =>
        session_after_auth net s (after net e s)
          (Client.request_result (net 0%nat (register_request s)))
    | _ => session (after net e s) = session s
    end
    /\ (forall s' : state,
          cleared s' ->
          AppShell.render (AppShell.settle s')
          = Ok match location s' with
               | RStudent | RAdmin | RLogin => VLoginPage
               | RRegister => VRegisterPage
               | RHome => VHome
               | ROther => VNotFound
               end).
Proof.
  intros net e s. split.
  - apply session_after_event.
  - apply view_when_cleared.
Qed.

(** C5 as stated fails on the home page: when the refresh of the current
    user is answered with 401 there, the session is cleared and the user
    stays on the home page. *)
Lemma C5_refresh_failure_on_home_stays_home :
  cleared (step (scripted [unauthorized]) RefreshSession
             (signed_in "T1" a_student RHome))
  /\ location (step (scripted [unauthorized]) RefreshSession
                 (signed_in "T1" a_student RHome))
     = RHome
  /\ AppShell.render (step (scripted [unauthorized]) RefreshSession
                        (signed_in "T1" a_student RHome))
     = Ok VHome.
Proof. repeat split; reflexivity. Qed.

(** C2. With a non-empty token [t] in the state, every request of every
    event of the views carries Authorization: Bearer [t]; the two sign-in
    forms, whose calls take no token, are not rendered then.  A login or
    register whose answer holds the token [t] stores it in the state and in
    local storage and sends the next request, for the current user, with
    Bearer [t].  A request made without a token has no Authorization
    header. *)
Theorem C2_bearer_token :
  forall (net : network) (s : state) (t : string),
    token_of s = Some (JStr t) ->
    t <> EmptyString ->
    (forall e req,
        e <> LoginSubmit -> e <> RegisterSubmit ->
        In req (requests net e s) ->
        header "Authorization" (headers req) = Some ("Bearer " ++ t))
    /\ AppShell.render s <> Ok VLoginPage
    /\ AppShell.render s <> Ok VRegisterPage
    /\ (forall (s0 : state) (e : event) (auth_req : FetchInit) (data : json),
          (e = LoginSubmit /\ auth_req = login_request s0)
          \/ (e = RegisterSubmit /\ auth_req = register_request s0) ->
          Client.request_result (net 0%nat auth_req) = Ok data ->
          Js.member data "access_token" = Ok (Some (JStr t)) ->
          requests net e s0 = [auth_req; me_request s0 (Some (JStr t))]
          /\ header "Authorization" (headers auth_req) = None
          /\ header "Authorization"
               (headers (me_request s0 (Some (JStr t))))
             = Some ("Bearer " ++ t)
          /\ (forall me,
                Client.request_result
                  (net 1%nat (me_request s0 (Some (JStr t)))) = Ok me ->
                session (after net e s0) = (Some (JStr t), Some t)))
    /\ (forall a : Client.RequestArgs,
          Js.truthy_val (Client.token a) = false ->
          header "Authorization" (headers (Client.request_init a)) = None).
Proof.
  intros net s t S NE.
  assert (T : Js.truthy (JStr t) = true)
    by (destruct t; [congruence|reflexivity]).
  assert (B : bearer (Some (JStr t)) = Some ("Bearer " ++ t)).
  { unfold bearer. cbn [Js.truthy_val]. now rewrite T. }
  split; [|split; [|split; [|split]]].
  - intros e req NL NR I. rewrite <- B, <- S.
    now apply (requests_carry_token net e).
  - apply sign_in_forms_need_no_token. now rewrite S.
  - apply sign_in_forms_need_no_token. now rewrite S.
  - intros s0 e auth_req data E A M. repeat split.
    + now apply (sign_in_requests net s0 e auth_req data (JStr t)).
    + destruct E as [[_ ->]|[_ ->]]; reflexivity.
    + rewrite <- B. apply header_authorization.
    + intros me R. pose proof (session_after_event net e s0) as H.
      destruct E as [[-> ->]|[-> ->]]; unfold session_after_auth in H;
        rewrite A, M in H; cbn [Js.truthy_val] in H; rewrite T, R in H;
        exact H.
  - intros a F.
    change (headers (Client.request_init a))
      with (Client.request_headers (Client.token a)).
    rewrite header_authorization. unfold bearer. now rewrite F.
Qed.

(** The theorem at a student signed in with the token T1 who refreshes the
    list of applications. *)
Lemma C2_bearer_token_witness :
  header "Authorization"
    (headers (list_my_request (signed_in "T1" a_student RStudent)))
  = Some "Bearer T1".
Proof.
  apply (proj1 (C2_bearer_token (scripted [])
                  (signed_in "T1" a_student RStudent) "T1"
                  eq_refl ltac:(discriminate))
           StudentRefresh
           (list_my_request (signed_in "T1" a_student RStudent))
           ltac:(discriminate) ltac:(discriminate)).
  left. reflexivity.
Defined.

(** A whole sign-in: login is answered with the token T1, the current user
    with a student; the second request carries the token, which is then in
    the state and in local storage, and the student dashboard is shown. *)
Example login_stores_and_sends_token :
  map wire
    (requests
       (scripted
          [Responded (json_response 200 (JObj [("access_token", JStr "T1")]));
           Responded (json_response 200 a_student)])
       LoginSubmit (AppShell.init None None RLogin))
  = [(Some "application/json", None,
      Some ("{" ++ Js.quote "email" ++ ":" ++ Js.quote "student1@example.com"
            ++ "," ++ Js.quote "password" ++ ":" ++ Js.quote "password123"
            ++ "}"));
     (Some "application/json", Some "Bearer T1", None)]
  /\ session
       (step
          (scripted
             [Responded (json_response 200 (JObj [("access_token", JStr "T1")]));
              Responded (json_response 200 a_student)])
          LoginSubmit (AppShell.init None None RLogin))
     = (Some (JStr "T1"), Some "T1")
  /\ AppShell.render
       (step
          (scripted
             [Responded (json_response 200 (JObj [("access_token", JStr "T1")]));
              Responded (json_response 200 a_student)])
          LoginSubmit (AppShell.init None None RLogin))
     = Ok VStudentDashboard.
Proof. repeat split; reflexivity. Qed.

(** * Further properties of the code *)

(** ** The API client *)

(** X1. [request] returns a value only for an answer with a status in
    200-299, and the value is then the body, parsed, or its raw text when
    the body is not JSON and not declared as JSON.  A network failure and
    every other status make it throw. *)
Theorem X1_request_returns_only_success :
  forall (net : network) (a : Client.RequestArgs) (v : json),
    outcome net (Client.request a) = Ok v ->
    exists resp,
      net 0%nat (Client.request_init a) = Responded resp
      /\ ok resp = true
      /\ (parsed resp = Parsed v
          \/ (declares_json resp = false /\ v = JStr (text resp)
              /\ exists m, parsed resp = NotJson m)).
Proof.
  intros net a v. unfold outcome. rewrite run_request. simpl.
  destruct (net 0%nat (Client.request_init a)) as [resp|e]; [|discriminate].
  simpl. unfold Client.parseJsonOrText, declares_json.
  destruct (Str.includes _ _) eqn:D, (parsed resp) as [w|m] eqn:P;
    try discriminate;
    destruct (ok resp) eqn:K; simpl; try discriminate;
    intros H; injection H as <-; exists resp; repeat split; eauto.
Qed.

(** The theorem at a 200 with the JSON of a student. *)
Lemma X1_request_returns_only_success_witness :
  exists resp,
    scripted [Responded (json_response 200 a_student)] 0%nat
      (Client.request_init
         (Client.mkRequestArgs None "/auth/me" None (Some (JStr "T1")) None))
    = Responded resp
    /\ ok resp = true.
Proof.
  destruct (X1_request_returns_only_success
              (scripted [Responded (json_response 200 a_student)])
              (Client.mkRequestArgs None "/auth/me" None (Some (JStr "T1"))
                 None)
              a_student eq_refl) as (resp & N & K & _).
  exists resp. split; [exact N|exact K].
Defined.

Lemma count_char_concat (c : ascii) (k : nat) (l : list string) :
  (forall x, In x l -> count_char c x = k) ->
  count_char c (String.concat "&" l)
  = List.length l * k + (if Ascii.eqb "&" c then pred (List.length l) else 0).
Proof.
  induction l as [|x l IH]; intros H.
  - destruct (Ascii.eqb "&" c); reflexivity.
  - assert (Hx : count_char c x = k) by (apply H; now left).
    assert (Hl : forall y, In y l -> count_char c y = k)
      by (intros y I; apply H; now right).
    specialize (IH Hl). destruct l as [|y l].
    + change (String.concat "&" [x]) with x. rewrite Hx.
      destruct (Ascii.eqb "&" c); simpl; lia.
    + change (String.concat "&" (x :: y :: l))
        with (x ++ String "&" (String.concat "&" (y :: l))).
      rewrite count_char_append, Hx.
      change (count_char c (String "&" (String.concat "&" (y :: l))))
        with ((if Ascii.eqb "&" c then 1 else 0)
              + count_char c (String.concat "&" (y :: l))).
      rewrite IH. destruct (Ascii.eqb "&" c); simpl; lia.
Qed.

(** X2. Whatever the status filter and the search text hold, the query of
    the admin list has one equals sign per parameter and ampersands only
    between parameters: the texts are encoded, so they cannot add a
    parameter.  There are two parameters, plus one for a truthy status and
    one for a truthy search text. *)
Theorem X2_query_separators :
  forall (status q limit offset : jsval),
    let params := Client.adminListParams status q limit offset in
    let query := Client.URLSearchParams.toString params in
    count_char "=" query = List.length params
    /\ count_char "&" query = pred (List.length params)
    /\ List.length params
       = (if Js.truthy_val status then 1 else 0)
         + (if Js.truthy_val q then 1 else 0) + 2.
Proof.
  intros status q limit offset params query.
  assert (P : forall (c : ascii) (k : nat),
             (c = "&"%char /\ k = 0) \/ (c = "="%char /\ k = 1) ->
             forall x,
               In x (map (fun nv => Client.URLSearchParams.encode (fst nv)
                                    ++ "="
                                    ++ Client.URLSearchParams.encode (snd nv))
                       params) ->
               count_char c x = k).
  { intros c k C x I. apply in_map_iff in I. destruct I as ([n v] & <- & _).
    cbn [fst snd]. rewrite !count_char_append.
    destruct (count_char_encode n) as [N1 N2].
    destruct (count_char_encode v) as [V1 V2].
    destruct C as [[-> ->]|[-> ->]]; rewrite ?N1, ?N2, ?V1, ?V2; reflexivity. }
  unfold query, Client.URLSearchParams.toString.
  rewrite (count_char_concat "=" 1), (count_char_concat "&" 0);
    [|apply P; auto|apply P; auto].
  rewrite !length_map. cbn [Ascii.eqb]. repeat split; try (simpl; lia).
  unfold params, Client.adminListParams.
  destruct (Js.truthy_val status), (Js.truthy_val q); reflexivity.
Qed.

Example query_with_ampersand_in_search :
  Client.URLSearchParams.toString
    (Client.adminListParams (Some JNull) (Some (JStr "a&limit=1")) None None)
  = "q=a%26limit%3D1&limit=50&offset=0".
Proof. reflexivity. Qed.

(** X3. The base URL is normalized twice, once by [AppShell] and once by
    [request]: of two trailing slashes in the configured base none is left
    in the URL, of three one is left; without a configured base, or with
    an empty one, the URL starts with http://localhost:3001. *)
Theorem X3_base_is_normalized_twice :
  forall (stored : option string) (loc : route) (b : string),
    url (list_my_request (AppShell.init (Some (b ++ "//")) stored loc))
    = b ++ "/applications/my"
    /\ url (list_my_request (AppShell.init (Some (b ++ "///")) stored loc))
       = b ++ "//applications/my"
    /\ url (list_my_request (AppShell.init None stored loc))
       = "http://localhost:3001/applications/my"
    /\ url (list_my_request (AppShell.init (Some EmptyString) stored loc))
       = "http://localhost:3001/applications/my".
Proof.
  intros stored loc b.
  assert (G : forall x, Str.replace_trailing_slash (x ++ "/") = x).
  { intro x. rewrite replace_trailing_slash_spec, ends_with_slash_append.
    apply without_last_append. }
  assert (N : forall x, Str.is_empty (x ++ "/") = false).
  { intros x. now destruct x. }
  unfold list_my_request. rewrite !url_request_init. cbn.
  unfold AppShell.apiBase.
  replace (b ++ "///") with (((b ++ "/") ++ "/") ++ "/")
    by (rewrite !append_assoc; reflexivity).
  replace (b ++ "//") with ((b ++ "/") ++ "/")
    by (rewrite !append_assoc; reflexivity).
  rewrite !N, !G. repeat split. now rewrite append_assoc.
Qed.

(** ** The handlers of the views *)

(** X4. The four handlers that change an application (create draft,
    submit, withdraw, admin change of status) list the applications again
    exactly when the change succeeded: a failed change sends one request,
    a successful one two, the second being the list of the dashboard.  A
    draft whose answer is null counts as failed. *)
Theorem X4_change_then_list :
  forall (net : network) (e : event) (s : state) (req : FetchInit),
    change_request s e = Some req ->
    match Client.request_result (net 0%nat req) with
    | Throw _ => requests net e s = [req]
    | Ok data =>
        match e, data with
        | StudentCreateDraft, JNull => requests net e s = [req]
        | _, _ =>
            exists l, list_request s e = Some l /\ requests net e s = [req; l]
        end
    end.
Proof.
  intros net e s req C.
  destruct e; try discriminate C; injection C as <-;
    unfold_handlers; unfold list_request, first_request, list_my_request;
    exec; try reflexivity; try (eexists; split; reflexivity).
  all: try (match goal with
            | H : Js.member ?a _ = _ |- _ => destruct a; try discriminate H
            end).
  all: try reflexivity; try (eexists; split; reflexivity).
Qed.

(** The theorem at a submit that the backend refuses. *)
Lemma X4_change_then_list_witness :
  requests (scripted [unauthorized]) (StudentSubmit (Some (JNum 7)))
    (signed_in "T1" a_student RStudent)
  = [Client.request_init
       (Client.mkRequestArgs (Some "http://localhost:3001")
          "/applications/7/submit" (Some "POST") (Some (JStr "T1")) None)].
Proof.
  exact (X4_change_then_list (scripted [unauthorized])
           (StudentSubmit (Some (JNum 7)))
           (signed_in "T1" a_student RStudent)
           (Client.request_init
              (Client.mkRequestArgs (Some "http://localhost:3001")
                 "/applications/7/submit" (Some "POST") (Some (JStr "T1"))
                 None))
           eq_refl).
Defined.

Lemma message_or_nonempty (e : exn) (fallback : string) :
  fallback <> EmptyString -> Js.message_or e fallback <> EmptyString.
Proof.
  unfold Js.message_or. destruct (message e); simpl; [auto|discriminate].
Qed.

(** X5. When the first API call of a handler throws, the handler sends
    nothing more and shows a message that is never empty in the error line
    of its component: the message of the exception, or the fallback of the
    handler when that is empty.  The session and the location stay as they
    were. *)
Theorem X5_failure_is_shown :
  forall (net : network) (e : event) (s : state) (req : FetchInit) (err : exn),
    first_request s e = Some req ->
    Client.request_result (net 0%nat req) = Throw err ->
    requests net e s = [req]
    /\ error_line e (after net e s) = Js.message_or err (fallback_message e)
    /\ error_line e (after net e s) <> EmptyString
    /\ session (after net e s) = session s
    /\ location (after net e s) = location s.
Proof.
  intros net e s req err F R.
  assert (N : fallback_message e <> EmptyString)
    by (destruct e; try discriminate F; discriminate).
  assert (E : requests net e s = [req]
              /\ error_line e (after net e s)
                 = Js.message_or err (fallback_message e)
              /\ session (after net e s) = session s
              /\ location (after net e s) = location s).
  { destruct e; try discriminate F; injection F as <-;
      unfold_handlers; unfold first_request; cbn; rewrite R; cbn;
      repeat split. }
  destruct E as (E1 & E2 & E3 & E4). repeat split; auto.
  rewrite E2. now apply message_or_nonempty.
Qed.

(** The theorem at a login that the backend answers with 401. *)
Lemma X5_failure_is_shown_witness :
  LoginSt.error
    (loginPage (after (scripted [unauthorized]) LoginSubmit
                  (AppShell.init None None RLogin)))
  = "Invalid token".
Proof.
  apply (X5_failure_is_shown (scripted [unauthorized]) LoginSubmit
           (AppShell.init None None RLogin) _ (Error "Invalid token")
           eq_refl eq_refl).
Defined.

(** X6. When a handler of a dashboard has finished, the info line of the
    dashboard is empty, also after a success: the handlers that change an
    application write their message and then list again, and listing
    clears the line. *)
Theorem X6_info_is_wiped :
  forall (net : network) (s : state) (appId : jsval) (toStatus : string),
    StudentSt.info (student (after net StudentRefresh s)) = EmptyString
    /\ StudentSt.info (student (after net StudentCreateDraft s)) = EmptyString
    /\ StudentSt.info (student (after net (StudentSubmit appId) s))
       = EmptyString
    /\ StudentSt.info (student (after net (StudentWithdraw appId) s))
       = EmptyString
    /\ AdminSt.info (admin (after net AdminRefresh s)) = EmptyString
    /\ AdminSt.info (admin (after net (AdminChangeStatus appId toStatus) s))
       = EmptyString.
Proof.
  intros. repeat split; unfold_handlers; exec; reflexivity.
Qed.

(** X7. Logout needs no network: from every state it sends no request,
    clears the token, local storage and the current user, and ends on the
    login page. *)
Theorem X7_logout :
  forall (net : network) (s : state),
    requests net Logout s = []
    /\ cleared (step net Logout s)
    /\ location (step net Logout s) = RLogin
    /\ AppShell.render (step net Logout s) = Ok VLoginPage.
Proof.
  intros net s. destruct s as [[base tok me lm] st loc lp rp stu adm].
  repeat split.
Qed.

(** ** Routes and navigation *)

Lemma render_follow (s : state) (to : route) :
  AppShell.render (AppShell.follow s) <> Ok (VNavigate to).
Proof.
  unfold AppShell.follow.
  destruct (AppShell.render s) as [v|e] eqn:R.
  2:{ rewrite R. discriminate. }
  destruct v; try (rewrite R; discriminate).
  revert R. unfold AppShell.render, AppShell.student_element,
    AppShell.admin_element, RequireAuth, RequireRole, AppShell.isAuthed,
    AppShell.roles, token_of.
  destruct s as [[base tok me lm] st loc lp rp stu adm]. cbn.
  set (r := match Js.opt_member me "roles" with
            | Some v => if Js.truthy v then v else JArr []
            | None => JArr []
            end).
  clearbody r.
  destruct (Js.includes r "student") as [[|]|],
           (Js.includes r "admin") as [[|]|]; cbn; try discriminate;
    destruct loc; cbn; try discriminate;
    destruct (Js.truthy_val tok) eqn:T; cbn; try discriminate;
    intros H; injection H as <-; cbn; rewrite ?T; cbn; discriminate.
Qed.

(** X8. Redirects end: after one redirect the route element is never
    another redirect, so the router settles in one step and no state makes
    the guards send the user in a circle. *)
Theorem X8_redirects_settle :
  forall (s : state),
    (forall to, AppShell.render (AppShell.settle s) <> Ok (VNavigate to))
    /\ AppShell.settle s = AppShell.follow s.
Proof.
  intros s.
  assert (E : AppShell.settle s = AppShell.follow s).
  { unfold AppShell.settle. unfold AppShell.follow at 1.
    pose proof (render_follow s) as H.
    destruct (AppShell.render (AppShell.follow s)) as [[]|]; try reflexivity.
    now elim (H to). }
  split; [|exact E]. intros to. rewrite E. apply render_follow.
Qed.

Lemma follow_location (s : state) :
  exists loc, AppShell.follow s = set_location loc s.
Proof.
  unfold AppShell.follow.
  destruct (AppShell.render s) as [[| | | | | | |to]|];
    try (exists (location s); now destruct s).
  now exists to.
Qed.

Lemma settle_location (s : state) :
  exists loc, AppShell.settle s = set_location loc s.
Proof.
  unfold AppShell.settle.
  destruct (follow_location s) as (l1 & ->).
  destruct (follow_location (set_location l1 s)) as (l2 & ->).
  now exists l2.
Qed.

(** What the route element is, by location. *)
Lemma render_cases (s : state) (v : view) :
  AppShell.render s = Ok v ->
  exists isStudent isAdmin,
    Js.includes (AppShell.roles s) "student" = Ok isStudent
    /\ Js.includes (AppShell.roles s) "admin" = Ok isAdmin
    /\ v = match location s with
           | RHome => VHome
           | RLogin =>
               if AppShell.isAuthed s
               then VNavigate (if isAdmin then RAdmin else RStudent)
               else VLoginPage
           | RRegister =>
               if AppShell.isAuthed s then VNavigate RStudent
               else VRegisterPage
           | RStudent =>
               if AppShell.isAuthed s
               then if isStudent then VStudentDashboard
                    else VAccessDenied "student"
               else VNavigate RLogin
           | RAdmin =>
               if AppShell.isAuthed s
               then if isAdmin then VAdminDashboard
                    else VAccessDenied "admin"
               else VNavigate RLogin
           | ROther => VNotFound
           end.
Proof.
  unfold AppShell.render, AppShell.student_element, AppShell.admin_element,
    RequireAuth, RequireRole, AppShell.isAuthed.
  destruct (Js.includes (AppShell.roles s) "student") as [a|]; [|discriminate].
  destruct (Js.includes (AppShell.roles s) "admin") as [b|]; [|discriminate].
  intros H. exists a, b. repeat split.
  destruct (location s), (Js.truthy_val (token_of s)), a, b; simpl in H;
    now injection H as <-.
Qed.

(** The parts of a screen that rendered. *)
Lemma screen_view (s : state) (nav : TopNav.t) (v : view) (c : content) :
  screen s = Ok (nav, v, c) ->
  AppShell.render s = Ok v
  /\ (forall t, c = StudentTable t -> v = VStudentDashboard)
  /\ (forall t, c = AdminTable t -> v = VAdminDashboard)
  /\ exists isStudent isAdmin,
       Js.includes (AppShell.roles s) "student" = Ok isStudent
       /\ Js.includes (AppShell.roles s) "admin" = Ok isAdmin
       /\ TopNav.render (AppShell.isAuthed s) (ShellSt.loadingMe (shell s))
            (ShellSt.me (shell s)) isStudent isAdmin = Ok nav.
Proof.
  unfold screen.
  destruct (Js.includes (AppShell.roles s) "student") as [a|]; [|discriminate].
  destruct (Js.includes (AppShell.roles s) "admin") as [b|]; [|discriminate].
  destruct (TopNav.render _ _ _ a b) as [n|] eqn:N; [|discriminate].
  destruct (AppShell.render s) as [w|]; [|discriminate].
  destruct w;
    try destruct (StudentView.render (student s));
    try destruct (AdminView.render (admin s));
    try discriminate;
    intros H; injection H as <- <- <-;
    (split; [reflexivity|split; [|split]]);
    try (intros t' E; (discriminate E || reflexivity));
    exists a, b; auto.
Qed.

(** X9. The navigation bar agrees with the route guards: it shows the
    Student link exactly when /student renders the student dashboard, the
    Admin link exactly when /admin renders the admin dashboard, and the
    Login and Register links exactly when those routes render their
    forms; the Logout button is there exactly when the Login link is not,
    and the Home link always. *)
Theorem X9_nav_matches_guards :
  forall (s : state) (nav : TopNav.t) (v : view) (c : content),
    screen s = Ok (nav, v, c) ->
    (In RStudent (TopNav.links nav)
     <-> AppShell.render (set_location RStudent s) = Ok VStudentDashboard)
    /\ (In RAdmin (TopNav.links nav)
        <-> AppShell.render (set_location RAdmin s) = Ok VAdminDashboard)
    /\ (In RLogin (TopNav.links nav)
        <-> AppShell.render (set_location RLogin s) = Ok VLoginPage)
    /\ (In RRegister (TopNav.links nav)
        <-> AppShell.render (set_location RRegister s) = Ok VRegisterPage)
    /\ (TopNav.logout_button nav = true <-> ~ In RLogin (TopNav.links nav))
    /\ In RHome (TopNav.links nav).
Proof.
  intros s nav v c S.
  destruct (screen_view s nav v c S) as (_ & _ & _ & a & b & IA & IB & N).
  clear S. revert IA IB N.
  unfold AppShell.render, AppShell.student_element, AppShell.admin_element,
    RequireAuth, RequireRole, AppShell.isAuthed, TopNav.render, AppShell.roles,
    token_of.
  destruct s as [[base tok me lm] st loc lp rp stu adm]. cbn.
  intros -> -> N.
  destruct (Js.truthy_val tok), a, b; cbn in N;
    try destruct (Js.truthy me);
    try destruct (TopNav.roles_text me);
    try destruct (mount_child (Js.prop me "email"));
    try discriminate N; injection N as <-; cbn;
    repeat split; intros; try discriminate; try tauto;
    repeat match goal with
           | H : _ \/ _ |- _ => destruct H
           | H : False |- _ => destruct H
           end; try discriminate; auto 6.
  all: intros K; repeat (destruct K as [K|K]; try discriminate K); exact K.
Qed.

(** The theorem at a signed-in student on the home page. *)
Lemma X9_nav_matches_guards_witness :
  In RStudent
    (TopNav.links
       (TopNav.mk [RHome; RStudent] (Some "Refresh session") true false
          (Some (Some (JStr "student1@example.com"), "student")))).
Proof.
  apply (proj1 (X9_nav_matches_guards (signed_in "T1" a_student RHome)
                  (TopNav.mk [RHome; RStudent] (Some "Refresh session") true
                     false
                     (Some (Some (JStr "student1@example.com"), "student")))
                  VHome NoTable eq_refl)).
  reflexivity.
Defined.

(** X10. A page load with a token in local storage has no current user:
    both dashboards show access denied, whatever roles the user has, and
    the login and register routes redirect to the denied /student, until
    the session is refreshed. *)
Theorem X10_reload_denies_dashboards :
  forall (env : option string) (t : string) (loc : route),
    t <> EmptyString ->
    token_of (AppShell.settle (AppShell.init env (Some t) loc))
    = Some (JStr t)
    /\ ShellSt.me (shell (AppShell.settle (AppShell.init env (Some t) loc)))
       = JNull
    /\ AppShell.render (AppShell.settle (AppShell.init env (Some t) loc))
       = Ok match loc with
            | RLogin | RRegister | RStudent => VAccessDenied "student"
            | RAdmin => VAccessDenied "admin"
            | RHome => VHome
            | ROther => VNotFound
            end.
Proof.
  intros env t loc NE. destruct t as [|c t]; [congruence|].
  destruct loc; repeat split.
Qed.

(** The theorem at a load of /login with the token T1 stored. *)
Lemma X10_reload_denies_dashboards_witness :
  AppShell.render (AppShell.settle (AppShell.init None (Some "T1") RLogin))
  = Ok (VAccessDenied "student").
Proof.
  apply (X10_reload_denies_dashboards None "T1" RLogin). discriminate.
Defined.

(** ** What the screen offers *)

Lemma render_token (s : state) (v : view) :
  AppShell.render s = Ok v ->
  match v with
  | VLoginPage | VRegisterPage => Js.truthy_val (token_of s) = false
  | VStudentDashboard | VAdminDashboard | VAccessDenied _ =>
      Js.truthy_val (token_of s) = true
  | _ => True
  end.
Proof.
  intros R. destruct (render_cases s v R) as (a & b & _ & _ & ->).
  unfold AppShell.isAuthed.
  destruct (location s), (Js.truthy_val (token_of s)), a, b; auto.
Qed.

(** The sign-in forms are offered without a token only, everything else
    that calls the API with a token only. *)
Lemma available_token (s : state) (e : event) :
  available s e ->
  match e with
  | LoginSubmit | RegisterSubmit => Js.truthy_val (token_of s) = false
  | Typed _ _ | LinkTo _ => True
  | _ => Js.truthy_val (token_of s) = true
  end.
Proof.
  unfold available. destruct (screen s) as [[[nav v] c]|] eqn:S; [|tauto].
  destruct (screen_view s nav v c S) as (R & CS & CA & a & b & _ & _ & N).
  pose proof (render_token s v R) as T.
  assert (NT : TopNav.refresh_button nav <> None
               \/ TopNav.logout_button nav = true ->
               Js.truthy_val (token_of s) = true).
  { unfold TopNav.render, AppShell.isAuthed in N.
    destruct (Js.truthy_val (token_of s)); [auto|].
    cbn in N. injection N as <-. cbn. intros [H|H]; congruence. }
  destruct e; auto.
  - intros [-> _]. exact T.
  - intros [-> _]. exact T.
  - intros [-> _]. exact T.
  - intros [-> _]. exact T.
  - intros (rows & r & -> & _). now rewrite (CS _ eq_refl) in T.
  - intros (rows & r & -> & _). now rewrite (CS _ eq_refl) in T.
  - intros [-> _]. exact T.
  - intros (rows & r & -> & _). now rewrite (CA _ eq_refl) in T.
Qed.

(** X11. Apart from the two sign-in calls, every request that an offered
    event sends carries an Authorization header with the token of the
    session: the dashboards and the Refresh session button are rendered
    only with a truthy token. *)
Theorem X11_offered_requests_are_authorized :
  forall (net : network) (e : event) (s : state) (req : FetchInit),
    available s e ->
    e <> LoginSubmit -> e <> RegisterSubmit ->
    In req (requests net e s) ->
    Js.truthy_val (token_of s) = true
    /\ header "Authorization" (headers req)
       = Some ("Bearer " ++ Js.to_String_val (token_of s)).
Proof.
  intros net e s req A NL NR I.
  pose proof (requests_carry_token net e s req NL NR I) as H.
  assert (T : Js.truthy_val (token_of s) = true).
  { pose proof (available_token s e A) as T.
    destruct e; try congruence; try exact T; now destruct I. }
  split; [exact T|]. rewrite H. unfold bearer. now rewrite T.
Qed.

(** The theorem at the Refresh button of the dashboard of a student. *)
Lemma X11_offered_requests_are_authorized_witness :
  header "Authorization"
    (headers (list_my_request (signed_in "T1" a_student RStudent)))
  = Some "Bearer T1".
Proof.
  apply (X11_offered_requests_are_authorized (scripted []) StudentRefresh
           (signed_in "T1" a_student RStudent)
           (list_my_request (signed_in "T1" a_student RStudent))).
  - split; reflexivity.
  - discriminate.
  - discriminate.
  - left. reflexivity.
Defined.

(** ** What every handler keeps *)

Lemma synced_set_location (loc : route) (s : state) :
  synced (set_location loc s) <-> synced s.
Proof. destruct s as [[base tok me lm] st l lp rp stu adm]. reflexivity. Qed.

Lemma synced_settle (s : state) : synced (AppShell.settle s) <-> synced s.
Proof.
  destruct (settle_location s) as (l & ->). apply synced_set_location.
Qed.

Lemma synced_init (env stored : option string) (loc : route) :
  synced (AppShell.init env stored loc).
Proof. unfold synced, token_of. destruct stored; reflexivity. Qed.

Lemma synced_after (net : network) (e : event) (s : state) :
  synced s -> synced (after net e s).
Proof.
  intros Sy.
  destruct s as [[base tok me lm] st loc lp rp stu adm].
  unfold synced, token_of in *. cbn in Sy.
  destruct e as [f v| | | | | | | | | | |]; try destruct f;
    unfold_handlers; unfold token_of; exec.
  all: cbn in *; auto.
Qed.

(** X12. Local storage follows the token.  A page load starts with the
    entry of local storage holding the string form of the token, no entry
    only for the empty token, and every handler run to its end keeps it so,
    before and after the redirects.  A reload from such a state therefore
    gives a token with the same string form: the same token when it was a
    string, and the text undefined when the token was undefined. *)
Theorem X12_storage_follows_token :
  forall (net : network) (e : event) (s : state),
    synced s ->
    synced (after net e s)
    /\ synced (step net e s)
    /\ (forall env stored loc, synced (AppShell.init env stored loc))
    /\ (forall env loc,
          Js.to_String_val (token_of (AppShell.init env (storage s) loc))
          = Js.to_String_val (token_of s)
          /\ (forall t, token_of s = Some (JStr t) ->
                        token_of (AppShell.init env (storage s) loc)
                        = Some (JStr t))
          /\ (token_of s = None ->
              token_of (AppShell.init env (storage s) loc)
              = Some (JStr "undefined"))).
Proof.
  intros net e s Sy.
  split; [now apply synced_after|].
  split; [now apply synced_settle, synced_after|].
  split; [apply synced_init|].
  intros env loc. unfold synced in Sy.
  unfold AppShell.init, token_of in *. cbn.
  destruct (storage s) as [x|]; cbn.
  - split; [|split].
    + now rewrite Sy.
    + intros t E. rewrite E in Sy. cbn in Sy. now subst x.
    + intros E. rewrite E in Sy. cbn in Sy. now subst x.
  - rewrite Sy. split; [reflexivity|]. split; [|discriminate].
    now intros t [= <-].
Qed.

(** The theorem at the sign-in of an admin from a fresh page. *)
Lemma X12_storage_follows_token_witness :
  synced (AppShell.settle (AppShell.init None None RLogin))
  /\ synced (step admin_sign_in LoginSubmit
               (AppShell.settle (AppShell.init None None RLogin))).
Proof.
  split; [reflexivity|].
  apply (X12_storage_follows_token admin_sign_in LoginSubmit
           (AppShell.settle (AppShell.init None None RLogin))).
  reflexivity.
Defined.

(** X14. Every handler clears the busy flag it set, whatever the state it
    started in and whatever the network answered.  After a handler has run
    to its end the busy flag of its page is false: Login, Register, the four
    handlers of the student dashboard and the two of the admin dashboard.
    Refresh session leaves loadingMe false when its token was truthy and as
    it was otherwise.  So a handler that starts with no flag set leaves
    none set. *)
Theorem X14_nothing_stays_busy :
  forall (net : network) (s : state),
    LoginSt.busy (loginPage (after net LoginSubmit s)) = false
    /\ RegisterSt.busy (registerPage (after net RegisterSubmit s)) = false
    /\ StudentSt.busy (student (after net StudentRefresh s)) = false
    /\ StudentSt.busy (student (after net StudentCreateDraft s)) = false
    /\ (forall appId,
          StudentSt.busy (student (after net (StudentSubmit appId) s)) = false
          /\ StudentSt.busy (student (after net (StudentWithdraw appId) s))
             = false)
    /\ AdminSt.busy (admin (after net AdminRefresh s)) = false
    /\ (forall appId toStatus,
          AdminSt.busy (admin (after net (AdminChangeStatus appId toStatus) s))
          = false)
    /\ ShellSt.loadingMe (shell (after net RefreshSession s))
       = (if Js.truthy_val (token_of s) then false
          else ShellSt.loadingMe (shell s))
    /\ (forall e, idle s -> idle (after net e s)).
Proof.
  intros net s.
  destruct s as [[base tok me lm] st loc lp rp stu adm].
  repeat match goal with |- _ /\ _ => split end.
  1-4, 6: unfold_handlers; unfold token_of; exec; reflexivity.
  - intros appId; split; unfold_handlers; unfold token_of; exec; reflexivity.
  - intros appId toStatus. unfold_handlers; unfold token_of; exec; reflexivity.
  - unfold_handlers; unfold token_of; exec; reflexivity.
  - intros e (I1 & I2 & I3 & I4 & I5). cbn in I1, I2, I3, I4, I5.
    unfold idle.
    destruct e as [f v| | | | | | | | | | |]; try destruct f;
      unfold_handlers; unfold token_of; exec.
    all: cbn in *; repeat split; auto.
Qed.

(** ** Edges of the sign-in and of the rendering *)

(** X15. A login or register whose 2xx answer has no access_token shows no
    error: it leaves [undefined] as token, writes the text undefined to
    local storage, sends no request for the current user and ends on the
    login page; after a reload that text is the token. *)
Theorem X15_answer_without_token :
  forall (net : network) (s : state) (e : event) (auth_req : FetchInit)
         (data : json),
    (e = LoginSubmit /\ auth_req = login_request s)
    \/ (e = RegisterSubmit /\ auth_req = register_request s) ->
    Js.truthy_val (token_of s) = false ->
    Client.request_result (net 0%nat auth_req) = Ok data ->
    Js.member data "access_token" = Ok None ->
    requests net e s = [auth_req]
    /\ token_of (after net e s) = None
    /\ storage (after net e s) = Some "undefined"
    /\ error_line e (after net e s) = EmptyString
    /\ AppShell.render (step net e s) = Ok VLoginPage
    /\ (forall env loc,
          token_of (AppShell.init env (storage (after net e s)) loc)
          = Some (JStr "undefined")).
Proof.
  intros net s e auth_req data E T A M.
  destruct s as [[base tok me lm] st l lp rp stu adm].
  unfold token_of in T. cbn in T.
  destruct E as [[-> ->]|[-> ->]]; unfold step; unfold_handlers;
    unfold token_of; cbn in *; rewrite A; cbn; rewrite M; cbn; rewrite T; cbn;
    repeat split.
Qed.

(** The theorem at a login that is answered with an empty object. *)
Lemma X15_answer_without_token_witness :
  storage (after (scripted [Responded (json_response 200 (JObj []))])
             LoginSubmit (AppShell.init None None RLogin))
  = Some "undefined".
Proof.
  apply (X15_answer_without_token
           (scripted [Responded (json_response 200 (JObj []))])
           (AppShell.init None None RLogin) LoginSubmit
           (login_request (AppShell.init None None RLogin)) (JObj [])
           (or_introl (conj eq_refl eq_refl)) eq_refl eq_refl eq_refl).
Defined.

(** X16. When the roles of the current user are truthy and not an array,
    a signed-in screen renders nothing, at every location: a text makes
    the navigation bar throw, any other value makes [AppShell] and the
    guards throw. *)
Theorem X16_roles_crash :
  forall (s : state) (fields : list (string * json)) (v : json) (loc : route),
    ShellSt.me (shell s) = JObj fields ->
    Js.lookup "roles" fields = Some v ->
    Js.truthy v = true ->
    (forall items, v <> JArr items) ->
    (Js.truthy_val (token_of s) = true ->
     exists e, screen (set_location loc s) = Throw e)
    /\ ((forall str, v <> JStr str) ->
        exists e, AppShell.render (set_location loc s) = Throw e
                  /\ screen (set_location loc s) = Throw e).
Proof.
  intros s fields v loc M L T NA.
  destruct s as [[base tok me lm] st l lp rp stu adm]. cbn in M. subst me.
  unfold screen, AppShell.render, AppShell.roles, AppShell.isAuthed, token_of.
  cbn. rewrite L, T. split.
  - intros A. destruct v; try discriminate T; try (eexists; reflexivity).
    + destruct s as [|c s]; [discriminate T|].
      cbn. rewrite A. cbn. unfold TopNav.render, TopNav.roles_text. cbn.
      rewrite L. cbn. eexists. reflexivity.
    + now elim (NA items).
  - intros NS. destruct v; try discriminate T;
      try (eexists; split; reflexivity).
    + now elim (NS s).
    + now elim (NA items).
Qed.

(** The theorem at a user whose roles are the text admin. *)
Lemma X16_roles_crash_witness :
  exists e,
    screen (set_location RHome
              (signed_in "T1" (JObj [("roles", JStr "admin")]) RAdmin))
    = Throw e.
Proof.
  apply (proj1 (X16_roles_crash
                  (signed_in "T1" (JObj [("roles", JStr "admin")]) RAdmin)
                  [("roles", JStr "admin")] (JStr "admin") RHome
                  eq_refl eq_refl eq_refl
                  ltac:(intros items; discriminate))).
  reflexivity.
Defined.

Lemma student_rows_mount (busy : bool) (items : list json) :
  map_result StudentView.mount_row (map (student_row busy) items)
  = if forallb student_cells_valid items
    then Ok (map (student_row busy) items)
    else Throw (Error "Objects are not valid as a React child").
Proof.
  induction items as [|a items IH]; [reflexivity|].
  cbn [map map_result forallb]. rewrite IH.
  unfold StudentView.mount_row at 1. rewrite mount_children_spec.
  unfold student_cells_valid, student_row at 1.
  cbn [StudentView.id StudentView.program StudentView.term StudentView.status
       forallb].
  destruct (cell_valid (Js.prop a "id") && _); cbn; [|reflexivity].
  destruct (forallb _ items); reflexivity.
Qed.

(** X17. After a successful listing the student dashboard holds whatever
    the backend sent, and its table is as follows.  The placeholder for an
    empty array, for the empty text and for an object whose length is 0.
    For an array without null whose cells (id, program, term, status)
    are no objects: one row per element, in order, with the cells, the
    class of the pill and both buttons as the element and a dashboard that
    is not busy give them.  For an array without null of which some cell
    is an object or an array holding one: an Error of React, which leaves
    nothing on the screen.  For an array with a null element and for every
    other body (a text, a number, a boolean, null, any other object): a
    TypeError, which leaves nothing on the screen either. *)
Theorem X17_table_after_refresh :
  forall (net : network) (s : state) (data : json),
    Client.request_result (net 0%nat (list_my_request s)) = Ok data ->
    StudentSt.apps (student (after net StudentRefresh s)) = data
    /\ match data with
       | JArr [] =>
           StudentView.render (student (after net StudentRefresh s))
           = Ok StudentView.Placeholder
       | JArr items =>
           (In JNull items ->
            exists msg,
              StudentView.render (student (after net StudentRefresh s))
              = Throw (mkExn TypeErrorK msg))
           /\ (~ In JNull items ->
               forallb student_cells_valid items = false ->
               exists msg,
                 StudentView.render (student (after net StudentRefresh s))
                 = Throw (mkExn ErrorK msg))
           /\ (~ In JNull items ->
               forallb student_cells_valid items = true ->
               StudentView.render (student (after net StudentRefresh s))
               = Ok (StudentView.Rows (map (student_row false) items)))
       | JStr EmptyString =>
           StudentView.render (student (after net StudentRefresh s))
           = Ok StudentView.Placeholder
       | JObj fields =>
           match Js.lookup "length" fields with
           | Some (JNum 0) =>
               StudentView.render (student (after net StudentRefresh s))
               = Ok StudentView.Placeholder
           | _ =>
               exists msg,
                 StudentView.render (student (after net StudentRefresh s))
                 = Throw (mkExn TypeErrorK msg)
           end
       | _ =>
           exists msg,
             StudentView.render (student (after net StudentRefresh s))
             = Throw (mkExn TypeErrorK msg)
       end.
Proof.
  intros net s data R.
  assert (AB : StudentSt.apps (student (after net StudentRefresh s)) = data
               /\ StudentSt.busy (student (after net StudentRefresh s))
                  = false).
  { unfold_handlers. cbn in *. rewrite R. split; reflexivity. }
  destruct AB as (AP & B). split; [exact AP|].
  generalize dependent (student (after net StudentRefresh s)).
  intros st AP B. unfold StudentView.render, apps_map. rewrite AP, B.
  destruct data as [|b|n|str|items|fields]; cbn [length_is_zero];
    try (eexists; reflexivity).
  - destruct str; cbn; [reflexivity|eexists; reflexivity].
  - destruct items as [|a items]; [reflexivity|]. split; [|split].
    + intros I. destruct (student_rows_null false (a :: items) I) as (e & E).
      rewrite E. now exists e.
    + intros N V. rewrite (student_rows_built false (a :: items) N).
      rewrite student_rows_mount, V. eexists. reflexivity.
    + intros N V. rewrite (student_rows_built false (a :: items) N).
      rewrite student_rows_mount, V. reflexivity.
  - destruct (Js.lookup "length" fields) as [[|b|n|str|items|fs]|];
      cbn; try (eexists; reflexivity).
    destruct n; cbn; try (eexists; reflexivity).
Qed.

(** The theorem at a 200 whose body is an HTML page. *)
Lemma X17_table_after_refresh_witness :
  exists msg,
    StudentView.render
      (student
         (after
            (scripted
               [Responded (mkResponse 200 (Some "text/html") "<html></html>"
                             (NotJson "Unexpected token <"))])
            StudentRefresh (signed_in "T1" a_student RStudent)))
    = Throw (mkExn TypeErrorK msg).
Proof.
  apply (proj2 (X17_table_after_refresh
                  (scripted
                     [Responded
                        (mkResponse 200 (Some "text/html") "<html></html>"
                           (NotJson "Unexpected token <"))])
                  (signed_in "T1" a_student RStudent)
                  (JStr "<html></html>") eq_refl)).
Defined.

Example table_of_two_applications :
  exists rows,
    StudentView.render
      (student
         (after (scripted [Responded (json_response 200 two_applications)])
            StudentRefresh (signed_in "T1" a_student RStudent)))
    = Ok (StudentView.Rows rows)
    /\ map StudentView.id rows = [Some (JNum 1); Some (JNum 2)]
    /\ map StudentView.submit_disabled rows = [false; true]
    /\ map StudentView.withdraw_disabled rows = [false; true]
    /\ map StudentView.pill rows = ["pill pill-draft"; "pill pill-approved"].
Proof. eexists. repeat split. Qed.

(** An application whose program is an object takes the whole table down. *)
Example table_with_an_object_cell :
  StudentView.render
    (student
       (after
          (scripted
             [Responded
                (json_response 200
                   (JArr [JObj [("id", JNum 1);
                                ("program", JObj [("name", JStr "Physics")]);
                                ("term", JStr "Fall 2026");
                                ("status", JStr "draft")]]))])
          StudentRefresh (signed_in "T1" a_student RStudent)))
  = Throw (Error "Objects are not valid as a React child").
Proof. reflexivity. Qed.

Lemma includes_throws_alike (r : json) (x y : string) (e : exn) :
  Js.includes r x = Throw e -> Js.includes r y = Throw e.
Proof. destruct r; simpl; congruence. Qed.

(** X18. A login or register that succeeds, with a truthy token and a
    successful load of the current user, always ends at /student, whatever
    the roles: the view is the student dashboard when the roles hold
    student, and access denied otherwise, also for an admin. *)
Theorem X18_sign_in_lands_on_student :
  forall (net : network) (s : state) (e : event) (auth_req : FetchInit)
         (data t me : json),
    (e = LoginSubmit /\ auth_req = login_request s)
    \/ (e = RegisterSubmit /\ auth_req = register_request s) ->
    Client.request_result (net 0%nat auth_req) = Ok data ->
    Js.member data "access_token" = Ok (Some t) ->
    Js.truthy t = true ->
    Client.request_result (net 1%nat (me_request s (Some t))) = Ok me ->
    location (step net e s) = RStudent
    /\ ShellSt.me (shell (step net e s)) = me
    /\ token_of (step net e s) = Some t
    /\ AppShell.render (step net e s)
       = RequireRole (AppShell.roles (step net e s)) "student"
           (Ok VStudentDashboard).
Proof.
  intros net s e auth_req data t me E A M T R.
  assert (H : after net e s
              = set_location RStudent
                  (on_shell
                     (fun x => ShellSt.mk (ShellSt.apiBase x) (Some t) me false)
                     (set_storage (Some (Js.to_String t))
                        (match e with
                         | LoginSubmit =>
                             on_login
                               (fun x => LoginSt.mk (LoginSt.email x)
                                           (LoginSt.password x) EmptyString
                                           false) s
                         | _ =>
                             on_register
                               (fun x => RegisterSt.mk (RegisterSt.email x)
                                           (RegisterSt.password x)
                                           (RegisterSt.firstName x)
                                           (RegisterSt.lastName x)
                                           EmptyString false) s
                         end)))).
  { destruct s as [[base tok m0 lm] st l lp rp stu adm].
    destruct E as [[-> ->]|[-> ->]]; unfold_handlers; cbn in *;
      rewrite A; cbn; rewrite M; cbn; rewrite T; cbn; rewrite R; cbn;
      reflexivity. }
  unfold step. fold (after net e s). rewrite H.
  set (s1 := on_shell _ _).
  assert (F : AppShell.follow (set_location RStudent s1)
              = set_location RStudent s1
              /\ AppShell.render (set_location RStudent s1)
                 = RequireRole (AppShell.roles (set_location RStudent s1))
                     "student" (Ok VStudentDashboard)).
  { unfold AppShell.follow, AppShell.render, AppShell.student_element,
      RequireAuth, RequireRole.
    change (Js.truthy_val (token_of (set_location RStudent s1)))
      with (Js.truthy t).
    change (location (set_location RStudent s1)) with RStudent.
    rewrite T. cbn [negb].
    destruct (Js.includes (AppShell.roles (set_location RStudent s1))
                "student") as [[|]|x] eqn:I1.
    - destruct (Js.includes _ "admin") as [b|x] eqn:I2; [split; reflexivity|].
      apply (includes_throws_alike _ _ "student") in I2. congruence.
    - destruct (Js.includes _ "admin") as [b|x] eqn:I2; [split; reflexivity|].
      apply (includes_throws_alike _ _ "student") in I2. congruence.
    - split; reflexivity. }
  destruct F as (F1 & F2). unfold AppShell.settle. rewrite !F1.
  repeat split; try reflexivity. exact F2.
Qed.

(** The theorem at the sign-in of a user who is only admin: the view is
    access denied for student, at /student. *)
Lemma X18_sign_in_lands_on_student_witness :
  location (step admin_sign_in LoginSubmit (AppShell.init None None RLogin))
  = RStudent
  /\ AppShell.render
       (step admin_sign_in LoginSubmit (AppShell.init None None RLogin))
     = Ok (VAccessDenied "student").
Proof.
  destruct (X18_sign_in_lands_on_student admin_sign_in
              (AppShell.init None None RLogin) LoginSubmit
              (login_request (AppShell.init None None RLogin))
              (JObj [("access_token", JStr "T2")]) (JStr "T2") an_admin
              (or_introl (conj eq_refl eq_refl))
              eq_refl eq_refl eq_refl eq_refl) as (L & _ & _ & V).
  split; [exact L|exact V].
Defined.

Lemma button_relations (busy : bool) (status : jsval) :
  (StudentDashboard.submit_disabled busy status = false ->
   StudentDashboard.withdraw_disabled busy status = false)
  /\ (AdminDashboard.approve_disabled busy status = false ->
      AdminDashboard.in_review_disabled busy status = true
      /\ AdminDashboard.needs_info_disabled busy status = false
      /\ AdminDashboard.reject_disabled busy status = false)
  /\ (status_in ["approved"; "rejected"; "withdrawn"] status ->
      StudentDashboard.submit_disabled busy status = true
      /\ StudentDashboard.withdraw_disabled busy status = true
      /\ AdminDashboard.in_review_disabled busy status = true
      /\ AdminDashboard.needs_info_disabled busy status = true
      /\ AdminDashboard.approve_disabled busy status = true
      /\ AdminDashboard.reject_disabled busy status = true)
  /\ (~ status_in ["draft"; "submitted"; "in_review"; "needs_info";
                   "approved"; "rejected"; "withdrawn"] status ->
      StudentDashboard.submit_disabled busy status = true
      /\ StudentDashboard.withdraw_disabled busy status = busy
      /\ AdminDashboard.in_review_disabled busy status = true
      /\ AdminDashboard.needs_info_disabled busy status = true
      /\ AdminDashboard.approve_disabled busy status = true
      /\ AdminDashboard.reject_disabled busy status = true).
Proof.
  rewrite <- literal_includes_false, <- literal_includes_spec.
  unfold StudentDashboard.submit_disabled, StudentDashboard.withdraw_disabled,
    AdminDashboard.in_review_disabled, AdminDashboard.needs_info_disabled,
    AdminDashboard.approve_disabled, AdminDashboard.reject_disabled.
  destruct status as [[|b|n|s|items|fields]|]; cbn;
    try (destruct busy; cbn; intuition congruence).
  repeat match goal with
         | |- context [String.eqb s ?l] =>
             destruct (String.eqb_spec s l); [subst s|]
         end;
    destruct busy; cbn; intuition congruence.
Qed.

(** X19. How the buttons of a row of a table that rendered go together.
    In a row of the student table: whenever Submit is enabled, so is
    Withdraw; for the final statuses approved, rejected and withdrawn
    neither is enabled; for a status that is none of the seven known ones
    (or is missing) Submit is disabled and Withdraw is enabled exactly when
    the dashboard is not busy.  In a row of the admin table, whose buttons
    are In review, Needs info, Approve and Reject in this order: whenever
    Approve is enabled, Needs info and Reject are enabled and In review is
    not; for the final statuses and for a status that is none of the seven
    known ones no button is enabled. *)
Theorem X19_buttons_relations :
  (forall (st : StudentSt.t) (rows : list StudentView.row),
     StudentView.render st = Ok (StudentView.Rows rows) ->
     Forall
       (fun r =>
          (StudentView.submit_disabled r = false ->
           StudentView.withdraw_disabled r = false)
          /\ (status_in ["approved"; "rejected"; "withdrawn"]
                (StudentView.status r) ->
              StudentView.submit_disabled r = true
              /\ StudentView.withdraw_disabled r = true)
          /\ (~ status_in ["draft"; "submitted"; "in_review"; "needs_info";
                           "approved"; "rejected"; "withdrawn"]
                  (StudentView.status r) ->
              StudentView.submit_disabled r = true
              /\ StudentView.withdraw_disabled r = StudentSt.busy st))
       rows)
  /\ (forall (st : AdminSt.t) (rows : list AdminView.row),
        AdminView.render st = Ok (AdminView.Rows rows) ->
        Forall
          (fun r =>
             exists in_review needs_info approve reject : bool,
               AdminView.buttons r
               = [("in_review", in_review); ("needs_info", needs_info);
                  ("approved", approve); ("rejected", reject)]
               /\ (approve = false ->
                   in_review = true /\ needs_info = false /\ reject = false)
               /\ (status_in ["approved"; "rejected"; "withdrawn"]
                     (AdminView.status r)
                   \/ ~ status_in ["draft"; "submitted"; "in_review";
                                   "needs_info"; "approved"; "rejected";
                                   "withdrawn"] (AdminView.status r) ->
                   in_review = true /\ needs_info = true
                   /\ approve = true /\ reject = true))
          rows).
Proof.
  split; intros st rows R.
  - destruct (student_table_rows st rows R) as (items & _ & ->).
    apply Forall_forall. intros r I. apply in_map_iff in I.
    destruct I as (a & <- & _). unfold student_row.
    cbn [StudentView.status StudentView.submit_disabled
         StudentView.withdraw_disabled].
    destruct (button_relations (StudentSt.busy st) (Js.prop a "status"))
      as (R1 & _ & R3 & R4).
    split; [exact R1|]. split; [intros H; split; apply (R3 H)|].
    intros H. split; apply (R4 H).
  - destruct (admin_table_rows st rows R) as (items & _ & ->).
    apply Forall_forall. intros r I. apply in_map_iff in I.
    destruct I as (a & <- & _). unfold admin_row.
    cbn [AdminView.status AdminView.buttons].
    destruct (button_relations (AdminSt.busy st) (Js.prop a "status"))
      as (_ & R2 & R3 & R4).
    eexists _, _, _, _. split; [reflexivity|]. split; [exact R2|].
    intros [H|H]; [destruct (R3 H) as (_ & _ & ? & ? & ? & ?)
                  |destruct (R4 H) as (_ & _ & ? & ? & ? & ?)]; auto.
Qed.

(** The theorem at two tables of two applications each. *)
Lemma X19_buttons_relations_witness :
  exists (srows : list StudentView.row) (arows : list AdminView.row),
    StudentView.render (StudentSt.setApps two_applications StudentSt.init)
    = Ok (StudentView.Rows srows)
    /\ AdminView.render (AdminSt.setApps two_admin_applications AdminSt.init)
       = Ok (AdminView.Rows arows)
    /\ List.length srows = 2%nat
    /\ List.length arows = 2%nat
    /\ Forall
         (fun r =>
            StudentView.submit_disabled r = false ->
            StudentView.withdraw_disabled r = false)
         srows.
Proof.
  eexists _, _.
  split; [reflexivity|]. split; [reflexivity|].
  split; [reflexivity|]. split; [reflexivity|].
  eapply Forall_impl;
    [|exact (proj1 X19_buttons_relations
               (StudentSt.setApps two_applications StudentSt.init) _
               eq_refl)].
  intros r H. exact (proj1 H).
Defined.
